(** * OpenBackdoor: the clean [Trainer] (openbackdoor/trainers/trainer.py)

    A shallow embedding of [Trainer.train_one_epoch], [Trainer.train],
    [Trainer.compute_hidden] and [Trainer.visualize], with the checkpoint,
    gradient-accumulation and visualisation properties proved about it.

    Conventions.
    - Python [int]s are [Z]; finite Python floats (losses, dev scores) are
      rationals [Q], added and divided in the order the code does it.
    - Exceptions are the [Raise] results of the monad [M]; side effects that
      happened before an exception stay in the world and in the trace.
    - The victim model, the loss function, the metric evaluator and the
      pooling head are collaborators outside this file's source; they enter
      through the record [collaborators].
    - Model parameters are identified by the number of [optimizer.step()]
      calls made since registration. *)

From Stdlib Require Import QArith Lqa ZArith Lia List Ascii String DecimalString.
From stdpp Require Import gmap strings list.
Import ListNotations.

(** ** Python values, exceptions *)

Inductive exn :=
| ZeroDivisionError
| AttributeError
| TypeError
| KeyError
| IndexError
| ValueError
| FileNotFoundError.

Inductive result (A : Type) :=
| Ok (a : A)
| Raise (e : exn).
Arguments Ok {A} a.
Arguments Raise {A} e.

(** The objects that flow through the hidden-state code: floats, Python
    lists, and torch tensors seen as the sequence of their slices along the
    first dimension. *)
#[warnings="-register-all"]
Inductive pyobj :=
| PyFloat (q : Q)
| PyList (items : list pyobj)
| PyTensor (slices : list pyobj).

(** [len(o)] *)
Definition py_len (o : pyobj) : result nat :=
  match o with
  | PyList items => Ok (length items)
  | PyTensor slices => Ok (length slices)
  | PyFloat _ => Raise TypeError
  end.

(** Iterating an object, as [list.extend] does with its argument. *)
Definition py_iter (o : pyobj) : result (list pyobj) :=
  match o with
  | PyList items => Ok items
  | PyTensor slices => Ok slices
  | PyFloat _ => Raise TypeError
  end.

(** [o.extend(arg)]: a method of lists only; a tensor has no attribute
    [extend]. *)
Definition py_extend (o : pyobj) (arg : pyobj) : result pyobj :=
  match o with
  | PyList items =>
      match py_iter arg with
      | Ok more => Ok (PyList (items ++ more))
      | Raise e => Raise e
      end
  | PyTensor _ | PyFloat _ => Raise AttributeError
  end.

(** [a % b] on ints: floor modulo, [ZeroDivisionError] on [b = 0]. *)
Definition py_mod (a b : Z) : result Z :=
  if (b =? 0)%Z then Raise ZeroDivisionError else Ok (a mod b)%Z.

(** [x > y] on floats. *)
Definition Qgtb (x y : Q) : bool :=
  match (y ?= x)%Q with Lt => true | _ => false end.

(** ** Data *)

Record example := {
  text : string;
  label : Z;
  poison_label : Z
}.

Definition batch := list example.

(** A [DataLoader]: its batches, in iteration order. *)
Definition DataLoader := list batch.

(** Python dicts keep insertion order: association lists, with
    [d[k] = v] replacing in place or appending. *)
Definition dict (V : Type) := list (string * V).

Fixpoint dict_get {V} (d : dict V) (k : string) : option V :=
  match d with
  | [] => None
  | (k', v) :: d' => if String.eqb k' k then Some v else dict_get d' k
  end.

Fixpoint dict_set {V} (d : dict V) (k : string) (v : V) : dict V :=
  match d with
  | [] => [(k, v)]
  | (k', v') :: d' =>
      if String.eqb k' k then (k', v) :: d' else (k', v') :: dict_set d' k v
  end.

Definition dict_keys {V} (d : dict V) : list string := map fst d.

(** ** Effects *)

Inductive mode := Training | Evaluation.

(** What a run does to the outside, in order. *)
Inductive event :=
| EvForward (step : nat) (loss : Q)      (* forward pass and loss of a batch *)
| EvBackward (step : nat)                (* loss.backward() *)
| EvClipGradNorm
| EvOptimizerStep
| EvSchedulerStep
| EvZeroGrad
| EvLogEpoch (epoch : Z) (avg_loss : Q)  (* logger.info('Epoch: {}, avg loss: {}') *)
| EvEvaluate (keys : list string) (dev_score : Q)
| EvTorchSave (path : string) (state_dict : nat)
| EvTorchLoad (path : string)
| EvMakedirs (path : string)
| EvNpSave (path : string)
| EvVisualize (hidden_state : pyobj) (labels poison_labels : list Z)
              (fig_basepath : string)
| EvSavefig (path : string)
| EvLogFinished.                         (* logger.info("Training finished.") *)

(** The mutable world: the victim model (mode and parameters) and the
    checkpoint files that [torch.load] can read, by path. *)
Record world := {
  model_mode : mode;
  weights : nat;
  ckpt_files : gmap string nat
}.

Definition M (A : Type) : Type := world -> result A * world * list event.

Definition ret {A} (a : A) : M A := fun w => (Ok a, w, []).

Definition bind {A B} (c : M A) (k : A -> M B) : M B :=
  fun w =>
    match c w with
    | (Ok a, w1, t1) =>
        match k a w1 with
        | (r, w2, t2) => (r, w2, t1 ++ t2)
        end
    | (Raise e, w1, t1) => (Raise e, w1, t1)
    end.

Definition raise {A} (e : exn) : M A := fun w => (Raise e, w, []).

Definition emit (ev : event) : M unit := fun w => (Ok tt, w, [ev]).

Definition get_world : M world := fun w => (Ok w, w, []).

Definition put_world (w' : world) : M unit := fun _ => (Ok tt, w', []).

Definition lift {A} (r : result A) : M A := fun w => (r, w, []).

Notation "x <- c ;; k" := (bind c (fun x => k))
  (at level 100, c at next level, right associativity).
Notation "c ;;; k" := (bind c (fun _ => k))
  (at level 100, k at level 200, right associativity).

(** [for i, x in enumerate(xs, start)] with loop-carried state. *)
Fixpoint for_enumerate {A St} (body : nat -> A -> St -> M St)
         (start : nat) (xs : list A) (s : St) : M St :=
  match xs with
  | [] => ret s
  | x :: xs' => s' <- body start x s ;; for_enumerate body (S start) xs' s'
  end.

(** [for i in range(n)] with loop-carried state. *)
Definition for_range {St} (n : nat) (body : nat -> St -> M St) (s : St) : M St :=
  for_enumerate (fun _ i st => body i st) 0 (seq 0 n) s.

Definition set_mode (m : mode) : M unit :=
  fun w => (Ok tt, {| model_mode := m; weights := weights w;
                      ckpt_files := ckpt_files w |}, []).

(** [self.optimizer.step()] *)
Definition optimizer_step : M unit :=
  fun w => (Ok tt, {| model_mode := model_mode w; weights := S (weights w);
                      ckpt_files := ckpt_files w |}, [EvOptimizerStep]).

(** [torch.save(self.model.state_dict(), path)] *)
Definition torch_save (path : string) : M unit :=
  fun w => (Ok tt, {| model_mode := model_mode w; weights := weights w;
                      ckpt_files := <[path := weights w]> (ckpt_files w) |},
            [EvTorchSave path (weights w)]).

(** [torch.load(path)] *)
Definition torch_load (path : string) : M nat :=
  fun w =>
    match ckpt_files w !! path with
    | Some sd => (Ok sd, w, [EvTorchLoad path])
    | None => (Raise FileNotFoundError, w, [])
    end.

(** [self.model.load_state_dict(state_dict)] *)
Definition load_state_dict (sd : nat) : M unit :=
  fun w => (Ok tt, {| model_mode := model_mode w; weights := sd;
                      ckpt_files := ckpt_files w |}, []).

(** ** Collaborators *)

Record collaborators := {
  (* self.loss_function(self.model(inputs).logits, labels) *)
  forward_loss : nat -> batch -> Q;
  (* evaluate_classification(model, eval_dataloader, metrics)[1] *)
  evaluate_classification : nat -> dict DataLoader -> list string -> Q;
  (* model(inputs).hidden_states[-1], a tensor *)
  last_hidden_state : nat -> batch -> list pyobj;
  (* pooler_output.detach().cpu().tolist(), either pooling branch *)
  pooler_output : nat -> batch -> list pyobj
}.

(** ** The trainer object *)

Record Trainer := {
  epochs : Z;
  batch_size : Z;
  ckpt : string;
  save_path : string;
  gradient_accumulation_steps : Z;
  visualize_flag : bool
}.

Section TrainOneEpoch.

Variable E : collaborators.
Variable self : Trainer.

(** Lines 114-117: scale the loss or run the backward pass. *)
Definition scale_or_backward (step : nat) (loss : Q) : M Q :=
  if (gradient_accumulation_steps self >? 1)%Z
  then ret (loss / inject_Z (gradient_accumulation_steps self))%Q
  else emit (EvBackward step) ;;; ret loss.

(** The body of the batch loop, lines 109-124. *)
Definition train_batch (step : nat) (b : batch) (total_loss : Q) : M Q :=
  w <- get_world ;;
  let loss := forward_loss E (weights w) b in
  emit (EvForward step loss) ;;;
  loss <- scale_or_backward step loss ;;
  r <- lift (py_mod (Z.of_nat step + 1) (gradient_accumulation_steps self)) ;;
  if (r =? 0)%Z
  then
    emit EvClipGradNorm ;;;
    optimizer_step ;;;
    emit EvSchedulerStep ;;;
    let total_loss := (total_loss + loss)%Q in
    emit EvZeroGrad ;;;
    ret total_loss
  else ret total_loss.

Definition train_one_epoch (epoch : nat) (epoch_iterator : DataLoader) : M Q :=
  set_mode Training ;;;
  total_loss <- for_enumerate train_batch 0 epoch_iterator 0%Q ;;
  match length epoch_iterator with
  | O => raise ZeroDivisionError
  | n => ret (total_loss / inject_Z (Z.of_nat n))%Q
  end.

End TrainOneEpoch.

(** ** Strings and paths *)

(** [s.split(sep)] for a one-character separator. *)
Fixpoint str_split (sep : ascii) (s : string) : list string :=
  match s with
  | EmptyString => [EmptyString]
  | String c s' =>
      if Ascii.eqb c sep then EmptyString :: str_split sep s'
      else match str_split sep s' with
           | [] => [String c EmptyString]
           | piece :: pieces => String c piece :: pieces
           end
  end.

(** [xs[0]] *)
Definition py_first {A} (xs : list A) : result A :=
  match xs with
  | [] => Raise IndexError
  | x :: _ => Ok x
  end.

(** [d[k]] *)
Definition py_getitem {V} (d : dict V) (k : string) : result V :=
  match dict_get d k with
  | Some v => Ok v
  | None => Raise KeyError
  end.

Definition starts_with_sep (s : string) : bool :=
  match s with
  | String c _ => Ascii.eqb c "/"
  | EmptyString => false
  end.

Fixpoint ends_with_sep (s : string) : bool :=
  match s with
  | EmptyString => false
  | String c EmptyString => Ascii.eqb c "/"
  | String _ s' => ends_with_sep s'
  end.

(** One step of [os.path.join] (posixpath). *)
Definition path_join2 (path b : string) : string :=
  if starts_with_sep b then b
  else if String.eqb path "" || ends_with_sep path then path +:+ b
  else path +:+ "/" +:+ b.

(** [os.path.join(a, *p)] *)
Definition path_join (a : string) (p : list string) : string :=
  fold_left path_join2 p a.

(** [str(n)] for a non-negative int. *)
Definition str_of_nat (n : nat) : string :=
  NilEmpty.string_of_uint (Nat.to_uint n).

(** A path lies under directory [dir]. *)
Definition under (dir path : string) : bool :=
  String.prefix (dir +:+ "/") path.

(** ** Dataloaders *)

Fixpoint batches_from {A} (size : nat) (current : list A) (xs : list A)
  : list (list A) :=
  match xs with
  | [] => match current with [] => [] | _ => [rev current] end
  | x :: xs' =>
      let current' := x :: current in
      if length current' =? size
      then rev current' :: batches_from size [] xs'
      else batches_from size current' xs'
  end.

(** Modelled from the spec: [get_dataloader] of openbackdoor.data is not in
    the source at hand. The spec has it give an unshuffled iterable of
    batches over a split; the batches are consecutive runs of [batch_size]
    examples, and a non-positive batch size is the [ValueError] of torch's
    DataLoader. *)
Definition get_dataloader (split : list example) (size : Z)
  : result DataLoader :=
  if (size <=? 0)%Z then Raise ValueError
  else Ok (batches_from (Z.to_nat size) [] split).

(** Modelled from the spec: [wrap_dataset] of openbackdoor.data is not in the
    source at hand. The spec has it map every split name to an iterable of
    batches of the given size. *)
Fixpoint wrap_dataset_loop (items : list (string * list example)) (size : Z)
         (dataloader : dict DataLoader) : result (dict DataLoader) :=
  match items with
  | [] => Ok dataloader
  | (name, split) :: items' =>
      match get_dataloader split size with
      | Raise e => Raise e
      | Ok dl => wrap_dataset_loop items' size (dict_set dataloader name dl)
      end
  end.

Definition wrap_dataset (dataset : dict (list example)) (size : Z)
  : result (dict DataLoader) :=
  wrap_dataset_loop dataset size [].

(** Lines 144-147: the splits that are evaluated every epoch. *)
Fixpoint dev_splits_loop (dataloader : dict DataLoader)
         (items : list (string * DataLoader))
         (eval_dataloader : dict DataLoader) : result (dict DataLoader) :=
  match items with
  | [] => Ok eval_dataloader
  | (key, _) :: items' =>
      match py_first (str_split "-" key) with
      | Raise e => Raise e
      | Ok head =>
          if String.eqb head "dev"
          then match py_getitem dataloader key with
               | Raise e => Raise e
               | Ok dl =>
                   dev_splits_loop dataloader items'
                                   (dict_set eval_dataloader key dl)
               end
          else dev_splits_loop dataloader items' eval_dataloader
      end
  end.

Definition dev_splits (dataloader : dict DataLoader)
  : result (dict DataLoader) :=
  dev_splits_loop dataloader dataloader [].

(** ** The rest of the trainer *)

(** [config["attacker"]["poisoner"]], with [poison_rate] already printed by
    [str]. *)
Record poisoner_config := {
  poisoner_name : string;
  poisoner_poison_rate : string;
  label_consistency : bool
}.

(** Attributes and locals that only exist when [visualize_flag] is set. *)
Record vis_attrs := {
  poison_method : string;
  poison_rate : string;
  poison_setting : string;
  vis_dataset : DataLoader;
  self_labels : list Z;
  self_poison_labels : list Z
}.

(** What the epoch loop carries from one epoch to the next. *)
Record run_state := {
  best_dev_score : Q;
  self_hidden_state : pyobj
}.

Definition model_checkpoint (self : Trainer) (name : string) : string :=
  path_join (save_path self) [name +:+ ".ckpt"].

Section Train.

Variable E : collaborators.
Variable self : Trainer.

(** [Trainer.register], as far as it can fail or touch the model. *)
Definition register (dataloader : dict DataLoader) (metrics : list string)
  : M unit :=
  _ <- lift (py_first metrics) ;;
  set_mode Training ;;;
  emit EvZeroGrad ;;;
  _ <- lift (py_getitem dataloader "train") ;;
  ret tt.

(** [Trainer.evaluate] *)
Definition evaluate (eval_dataloader : dict DataLoader)
           (metrics : list string) : M Q :=
  w <- get_world ;;
  let dev_score :=
    evaluate_classification E (weights w) eval_dataloader metrics in
  emit (EvEvaluate (dict_keys eval_dataloader) dev_score) ;;;
  ret dev_score.

(** The body of the batch loop of [compute_hidden], lines 233-249. The local
    [hidden_state] is rebound to the last layer's tensor at line 238, and it
    is that tensor which line 249 asks to [extend]. *)
Definition hidden_batch (b : batch) (st : pyobj * list Z * list Z)
  : M (pyobj * list Z * list Z) :=
  let '(hidden_state, labels, poison_labels) := st in
  let labels := labels ++ map label b in
  let poison_labels := poison_labels ++ map poison_label b in
  w <- get_world ;;
  let hidden_state := PyTensor (last_hidden_state E (weights w) b) in
  let pooler_output := PyList (pooler_output E (weights w) b) in
  hidden_state <- lift (py_extend hidden_state pooler_output) ;;
  ret (hidden_state, labels, poison_labels).

(** [Trainer.compute_hidden] *)
Definition compute_hidden (dataloader : DataLoader)
  : M (pyobj * list Z * list Z) :=
  set_mode Evaluation ;;;
  r <- for_enumerate (fun _ => hidden_batch) 0 dataloader (PyList [], [], []) ;;
  set_mode Training ;;;
  ret r.

(** [Trainer.visualize]; the projections and the scatter plots are left to
    the plotting stack, the files it is asked to write are recorded. *)
Definition visualize (hidden_state : pyobj) (labels poison_labels : list Z)
           (fig_basepath : string) : M unit :=
  emit (EvVisualize hidden_state labels poison_labels fig_basepath) ;;;
  let dataset_len := length labels in
  total <- lift (py_len hidden_state) ;;
  n_epochs <- (if dataset_len =? 0 then raise ZeroDivisionError
               else ret (total / dataset_len)) ;;
  for_range n_epochs
    (fun epoch _ =>
       emit (EvMakedirs fig_basepath) ;;;
       emit (EvSavefig
               (path_join fig_basepath
                          ["epoch_" +:+ str_of_nat epoch +:+ ".png"])))
    tt.

(** [train] reaches [compute_hidden] through [self]; a subclass may supply
    its own. *)
Variable self_compute_hidden : DataLoader -> M (pyobj * list Z * list Z).

(** Lines 152-160. *)
Definition prepare_visualization (dataset : dict (list example))
           (config : option poisoner_config) : M (pyobj * vis_attrs) :=
  cfg <- lift (match config with
               | Some c => Ok c
               | None => Raise TypeError
               end) ;;
  split <- lift (py_getitem dataset "train") ;;
  loader <- lift (get_dataloader split 32) ;;
  r <- self_compute_hidden loader ;;
  let '(hidden_state, labels, poison_labels) := r in
  ret (hidden_state,
       {| poison_method := poisoner_name cfg;
          poison_rate := poisoner_poison_rate cfg;
          poison_setting := if label_consistency cfg then "clean" else "dirty";
          vis_dataset := loader;
          self_labels := labels;
          self_poison_labels := poison_labels |}).

Definition no_visualization : pyobj * vis_attrs :=
  (PyList [],
   {| poison_method := ""; poison_rate := ""; poison_setting := "";
      vis_dataset := []; self_labels := []; self_poison_labels := [] |}).

(** The body of the epoch loop, lines 163-175. *)
Definition train_epoch (train_dataloader : DataLoader)
           (eval_dataloader : dict DataLoader) (metrics : list string)
           (vis : vis_attrs) (epoch : nat) (st : run_state) : M run_state :=
  epoch_loss <- train_one_epoch E self epoch train_dataloader ;;
  emit (EvLogEpoch (Z.of_nat epoch + 1) epoch_loss) ;;;
  dev_score <- evaluate eval_dataloader metrics ;;
  hidden <- (if visualize_flag self
             then
               r <- self_compute_hidden (vis_dataset vis) ;;
               let '(hidden_state, _, _) := r in
               lift (py_extend (self_hidden_state st) hidden_state)
             else ret (self_hidden_state st)) ;;
  if Qgtb dev_score (best_dev_score st)
  then
    (if String.eqb (ckpt self) "best"
     then torch_save (model_checkpoint self (ckpt self))
     else ret tt) ;;;
    ret {| best_dev_score := dev_score; self_hidden_state := hidden |}
  else ret {| best_dev_score := best_dev_score st;
              self_hidden_state := hidden |}.

(** Lines 177-185. *)
Definition save_and_visualize (vis : vis_attrs) (hidden_state : pyobj)
  : M unit :=
  let hidden_path :=
    path_join "./hidden_states"
              [poison_setting vis; poison_method vis; poison_rate vis] in
  emit (EvMakedirs hidden_path) ;;;
  emit (EvNpSave (path_join hidden_path ["hidden_states.npy"])) ;;;
  emit (EvNpSave (path_join hidden_path ["labels.npy"])) ;;;
  emit (EvNpSave (path_join hidden_path ["poison_labels.npy"])) ;;;
  visualize hidden_state (self_labels vis) (self_poison_labels vis)
            (path_join "./visualization"
                       [poison_setting vis; poison_method vis; poison_rate vis]).

(** Lines 142-160: everything before the epoch loop. *)
Definition train_setup (dataset : dict (list example)) (metrics : list string)
           (config : option poisoner_config)
  : M (DataLoader * dict DataLoader * vis_attrs * run_state) :=
  dataloader <- lift (wrap_dataset dataset (batch_size self)) ;;
  train_dataloader <- lift (py_getitem dataloader "train") ;;
  eval_dataloader <- lift (dev_splits dataloader) ;;
  register dataloader metrics ;;;
  let best_dev_score := 0%Q in
  r <- (if visualize_flag self
        then prepare_visualization dataset config
        else ret no_visualization) ;;
  let '(hidden_state, vis) := r in
  ret (train_dataloader, eval_dataloader, vis,
       {| best_dev_score := best_dev_score;
          self_hidden_state := hidden_state |}).

(** The first [k] rounds of the epoch loop. *)
Definition train_epochs (train_dataloader : DataLoader)
           (eval_dataloader : dict DataLoader) (metrics : list string)
           (vis : vis_attrs) (k : nat) (st : run_state) : M run_state :=
  for_range k (train_epoch train_dataloader eval_dataloader metrics vis) st.

(** Lines 177-194: everything after the epoch loop. *)
Definition train_finish (vis : vis_attrs) (st : run_state) : M unit :=
  (if visualize_flag self
   then save_and_visualize vis (self_hidden_state st)
   else ret tt) ;;;
  (if String.eqb (ckpt self) "last"
   then torch_save (model_checkpoint self (ckpt self))
   else ret tt) ;;;
  emit EvLogFinished ;;;
  state_dict <- torch_load (model_checkpoint self (ckpt self)) ;;
  load_state_dict state_dict.

(** [Trainer.train]; it returns [self.model], which is the world's model. *)
Definition train (dataset : dict (list example)) (metrics : list string)
           (config : option poisoner_config) : M unit :=
  r <- train_setup dataset metrics config ;;
  let '(train_dataloader, eval_dataloader, vis, st) := r in
  st <- train_epochs train_dataloader eval_dataloader metrics vis
                     (Z.to_nat (epochs self)) st ;;
  train_finish vis st.

End Train.

(** [Trainer.train] of the class in trainer.py, whose [compute_hidden] is
    the one above. *)
Definition Trainer_train (E : collaborators) (self : Trainer) :=
  train E self (compute_hidden E).

(** ** Reading traces *)

(** The losses of the forward passes, in order. *)
Definition forward_losses (t : list event) : list Q :=
  flat_map (fun ev => match ev with EvForward _ l => [l] | _ => [] end) t.

(** The dev scores of the evaluations, in order. *)
Definition dev_scores (t : list event) : list Q :=
  flat_map (fun ev => match ev with EvEvaluate _ s => [s] | _ => [] end) t.

(** The checkpoint writes, in order. *)
Definition saves (t : list event) : list (string * nat) :=
  flat_map (fun ev => match ev with EvTorchSave p sd => [(p, sd)] | _ => [] end) t.

Definition optimizer_steps (t : list event) : nat :=
  length (List.filter
            (fun ev => match ev with EvOptimizerStep => true | _ => false end) t).

(** The path an event writes to, if it writes. *)
Definition written_path (ev : event) : option string :=
  match ev with
  | EvTorchSave p _ | EvMakedirs p | EvNpSave p | EvSavefig p => Some p
  | _ => None
  end.

(** Events of the batch loop and of gradient bookkeeping. *)
Definition training_event (ev : event) : Prop :=
  match ev with
  | EvForward _ _ | EvBackward _ | EvClipGradNorm | EvOptimizerStep
  | EvSchedulerStep | EvZeroGrad => True
  | _ => False
  end.

(** ** The accumulated loss, as the specification words it *)

(** The loss a batch contributes once it is accumulated. *)
Definition accumulated (gas : Z) (loss : Q) : Q :=
  if (gas >? 1)%Z then (loss / inject_Z gas)%Q else loss.

(** The losses accumulated at optimizer-step batches, the batches whose
    1-based position is a multiple of the accumulation factor. *)
Fixpoint step_losses_from (gas : Z) (start : nat) (losses : list Q) : list Q :=
  match losses with
  | [] => []
  | l :: ls =>
      (if ((Z.of_nat start + 1) mod gas =? 0)%Z then [accumulated gas l] else [])
        ++ step_losses_from gas (S start) ls
  end.

Definition step_losses (gas : Z) (losses : list Q) : list Q :=
  step_losses_from gas 0 losses.

Definition avg_loss_spec (gas : Z) (losses : list Q) : Q :=
  (fold_left Qplus (step_losses gas losses) 0 /
   inject_Z (Z.of_nat (length losses)))%Q.

(** * Proofs *)

(** ** Running the monad *)

Lemma bind_run {A B} (c : M A) (k : A -> M B) w r w' t :
  bind c k w = (r, w', t) ->
  (exists a w1 t1 t2,
      c w = (Ok a, w1, t1) /\ k a w1 = (r, w', t2) /\ t = t1 ++ t2) \/
  (exists e, c w = (Raise e, w', t) /\ r = Raise e).
Proof.
  unfold bind. destruct (c w) as [[[a | e] w1] t1] eqn:Hc.
  - destruct (k a w1) as [[r2 w2] t2] eqn:Hk. intros [= <- <- <-].
    left. exists a, w1, t1, t2. auto.
  - intros [= <- <- <-]. right. exists e. auto.
Qed.

Lemma bind_ok {A B} (c : M A) (k : A -> M B) w a w1 t1 :
  c w = (Ok a, w1, t1) ->
  bind c k w = (let '(r, w2, t2) := k a w1 in (r, w2, t1 ++ t2)).
Proof. unfold bind. intros ->. reflexivity. Qed.

Lemma bind_raise {A B} (c : M A) (k : A -> M B) w e w1 t1 :
  c w = (Raise e, w1, t1) -> bind c k w = (Raise e, w1, t1).
Proof. unfold bind. intros ->. reflexivity. Qed.

(** Every event a computation emits satisfies [P]. *)
Definition emits {A} (P : event -> Prop) (c : M A) : Prop :=
  forall w, Forall P (snd (c w)).

(** A computation leaves the checkpoint files alone. *)
Definition keeps_files {A} (c : M A) : Prop :=
  forall w, ckpt_files (snd (fst (c w))) = ckpt_files w.

Section Emits.

Context (P : event -> Prop).

Lemma emits_ret {A} (a : A) : emits P (ret a).
Proof. intros w. constructor. Qed.

Lemma emits_raise {A} e : emits P (@raise A e).
Proof. intros w. constructor. Qed.

Lemma emits_lift {A} (r : result A) : emits P (lift r).
Proof. intros w. constructor. Qed.

Lemma emits_get_world : emits P get_world.
Proof. intros w. constructor. Qed.

Lemma emits_set_mode m : emits P (set_mode m).
Proof. intros w. constructor. Qed.

Lemma emits_load_state_dict sd : emits P (load_state_dict sd).
Proof. intros w. constructor. Qed.

Lemma emits_emit ev : P ev -> emits P (emit ev).
Proof. intros H w. simpl. auto. Qed.

Lemma emits_bind {A B} (c : M A) (k : A -> M B) :
  emits P c -> (forall a, emits P (k a)) -> emits P (bind c k).
Proof.
  intros Hc Hk w. unfold bind. specialize (Hc w).
  destruct (c w) as [[[a | e] w1] t1]; simpl in *; auto.
  specialize (Hk a w1). destruct (k a w1) as [[r2 w2] t2]; simpl in *.
  apply Forall_app; auto.
Qed.

Lemma emits_for_enumerate {A St} (body : nat -> A -> St -> M St) xs :
  (forall i x s, emits P (body i x s)) ->
  forall start s, emits P (for_enumerate body start xs s).
Proof.
  intros Hb. induction xs as [| x xs IH]; intros start s; simpl.
  - apply emits_ret.
  - apply emits_bind; auto.
Qed.

Lemma emits_for_range {St} n (body : nat -> St -> M St) s :
  (forall i st, emits P (body i st)) -> emits P (for_range n body s).
Proof. intros Hb. apply emits_for_enumerate. auto. Qed.

End Emits.

Lemma emits_weaken {A} (P Q : event -> Prop) (c : M A) :
  (forall ev, P ev -> Q ev) -> emits P c -> emits Q c.
Proof. intros HPQ Hc w. eapply Forall_impl; eauto. Qed.

Section KeepsFiles.

Lemma keeps_ret {A} (a : A) : keeps_files (ret a).
Proof. intros w. reflexivity. Qed.

Lemma keeps_raise {A} e : keeps_files (@raise A e).
Proof. intros w. reflexivity. Qed.

Lemma keeps_lift {A} (r : result A) : keeps_files (lift r).
Proof. intros w. reflexivity. Qed.

Lemma keeps_get_world : keeps_files get_world.
Proof. intros w. reflexivity. Qed.

Lemma keeps_set_mode m : keeps_files (set_mode m).
Proof. intros w. reflexivity. Qed.

Lemma keeps_emit ev : keeps_files (emit ev).
Proof. intros w. reflexivity. Qed.

Lemma keeps_optimizer_step : keeps_files optimizer_step.
Proof. intros w. reflexivity. Qed.

Lemma keeps_bind {A B} (c : M A) (k : A -> M B) :
  keeps_files c -> (forall a, keeps_files (k a)) -> keeps_files (bind c k).
Proof.
  intros Hc Hk w. unfold bind. specialize (Hc w).
  destruct (c w) as [[[a | e] w1] t1]; simpl in *; auto.
  specialize (Hk a w1). destruct (k a w1) as [[r2 w2] t2]; simpl in *.
  congruence.
Qed.

Lemma keeps_for_enumerate {A St} (body : nat -> A -> St -> M St) xs :
  (forall i x s, keeps_files (body i x s)) ->
  forall start s, keeps_files (for_enumerate body start xs s).
Proof.
  intros Hb. induction xs as [| x xs IH]; intros start s; simpl.
  - apply keeps_ret.
  - apply keeps_bind; auto.
Qed.

End KeepsFiles.

Create HintDb monad_frame.
#[local] Hint Resolve emits_ret emits_raise emits_lift emits_get_world
  emits_set_mode emits_load_state_dict emits_bind emits_for_enumerate
  emits_for_range keeps_ret keeps_raise keeps_lift keeps_get_world
  keeps_set_mode keeps_emit keeps_optimizer_step keeps_bind
  keeps_for_enumerate : monad_frame.

(** Discharges [emits] and [keeps_files] goals by following the structure of
    the computation. *)
Ltac frame :=
  repeat first
    [ progress intros
    | apply emits_bind | apply keeps_bind
    | apply emits_for_enumerate | apply keeps_for_enumerate
    | apply emits_for_range
    | apply emits_emit; simpl; now auto
    | solve [auto with monad_frame]
    | match goal with
      | |- emits _ (if ?b then _ else _) => destruct b
      | |- keeps_files (if ?b then _ else _) => destruct b
      | |- emits _ (match ?x with _ => _ end) => destruct x
      | |- keeps_files (match ?x with _ => _ end) => destruct x
      | |- emits _ (let '(_, _) := ?x in _) => destruct x
      | |- keeps_files (let '(_, _) := ?x in _) => destruct x
      end ].

(** ** The batch loop *)

Lemma forward_losses_app t1 t2 :
  forward_losses (t1 ++ t2) = forward_losses t1 ++ forward_losses t2.
Proof. apply flat_map_app. Qed.

Lemma optimizer_steps_app t1 t2 :
  optimizer_steps (t1 ++ t2) = optimizer_steps t1 + optimizer_steps t2.
Proof. unfold optimizer_steps. rewrite List.filter_app, length_app. reflexivity. Qed.

(** [enumerate(xs, start)] *)
Definition enumerate {A} (start : nat) (xs : list A) : list (nat * A) :=
  combine (seq start (length xs)) xs.

Lemma enumerate_nth {A} (xs : list A) :
  forall start i x,
    nth_error xs i = Some x -> In (start + i, x) (enumerate start xs).
Proof.
  unfold enumerate.
  induction xs as [| y ys IH]; intros start i x Hi; [destruct i; discriminate |].
  destruct i as [| i]; cbn [nth_error] in Hi.
  - injection Hi as ->. rewrite Nat.add_0_r. left. reflexivity.
  - right. replace (start + S i) with (S start + i) by lia.
    apply IH. exact Hi.
Qed.

(** Integer division steps up exactly at the multiples of the divisor. *)
Lemma div_succ_step g s :
  (0 < g)%Z -> (0 <= s)%Z ->
  ((s + 1) / g = s / g + (if (s + 1) mod g =? 0 then 1 else 0))%Z.
Proof.
  intros Hg Hs. destruct (Z.eqb_spec ((s + 1) mod g) 0) as [H0 | H0];
    Z.div_mod_to_equations; nia.
Qed.

Section BatchLoop.

Variable E : collaborators.
Variable self : Trainer.

Let gas := gradient_accumulation_steps self.

(** Whether the optimizer steps after the batch at 0-based position [step]. *)
Definition steps_at (step : nat) : bool :=
  ((Z.of_nat step + 1) mod gas =? 0)%Z.

(** What one round of the batch loop emits. *)
Definition batch_events (step : nat) (loss : Q) : list event :=
  EvForward step loss
    :: (if (gas >? 1)%Z then [] else [EvBackward step])
    ++ (if steps_at step
        then [EvClipGradNorm; EvOptimizerStep; EvSchedulerStep; EvZeroGrad]
        else []).

Lemma train_batch_run step b total w :
  gas <> 0%Z ->
  let loss := forward_loss E (weights w) b in
  train_batch E self step b total w =
  (Ok (if steps_at step then (total + accumulated gas loss)%Q else total),
   (if steps_at step
    then {| model_mode := model_mode w; weights := S (weights w);
            ckpt_files := ckpt_files w |}
    else w),
   batch_events step loss).
Proof.
  intros Hgas loss.
  unfold train_batch, scale_or_backward, batch_events, steps_at, accumulated,
    py_mod, bind, get_world, emit, lift, ret, optimizer_step.
  fold gas. fold loss.
  destruct (gas =? 0)%Z eqn:H0; [apply Z.eqb_eq in H0; contradiction |].
  destruct (gas >? 1)%Z; simpl;
    destruct ((Z.of_nat step + 1) mod gas =? 0)%Z; reflexivity.
Qed.

Lemma batch_events_losses step loss :
  forward_losses (batch_events step loss) = [loss].
Proof.
  unfold batch_events. destruct (gas >? 1)%Z, (steps_at step); reflexivity.
Qed.

Lemma batch_events_steps step loss :
  optimizer_steps (batch_events step loss) = if steps_at step then 1 else 0.
Proof.
  unfold batch_events. destruct (gas >? 1)%Z, (steps_at step); reflexivity.
Qed.

Lemma batch_events_backward step loss i :
  In (EvBackward i) (batch_events step loss) <-> (gas <= 1)%Z /\ i = step.
Proof.
  unfold batch_events. split.
  - intros [H | H]; [discriminate |].
    apply in_app_or in H. destruct H as [H | H].
    + destruct (Z.gtb_spec gas 1); [contradiction |].
      destruct H as [H | []]. injection H as <-. split; [lia | reflexivity].
    + destruct (steps_at step); simpl in H; [| contradiction].
      repeat destruct H as [H | H]; discriminate || contradiction.
  - intros [Hle ->]. right. apply in_or_app. left.
    destruct (Z.gtb_spec gas 1); [lia | left; reflexivity].
Qed.

(** The batch loop from position [start]: it never fails once the
    accumulation factor is not zero, it runs one forward pass per batch, and
    its total is the sum, in order, of the losses accumulated at the
    optimizer-step batches. *)
Lemma batch_loop_run batches :
  gas <> 0%Z ->
  forall start total w,
  exists w' t,
    for_enumerate (train_batch E self) start batches total w =
    (Ok (fold_left Qplus (step_losses_from gas start (forward_losses t)) total),
     w', t) /\
    length (forward_losses t) = length batches /\
    optimizer_steps t = length (step_losses_from gas start (forward_losses t)) /\
    (forall i, In (EvBackward i) t <->
               (gas <= 1)%Z /\ start <= i < start + length batches).
Proof.
  intros Hgas. induction batches as [| b bs IH]; intros start total w.
  - exists w, []. simpl. do 3 (split; [reflexivity |]).
    intros i. split; [intros [] | intros [_ H]; lia].
  - cbn [for_enumerate].
    pose proof (train_batch_run start b total w Hgas) as Hb. cbv zeta in Hb.
    set (loss := forward_loss E (weights w) b) in *.
    set (total1 := if steps_at start then _ else total) in *.
    set (w1 := if steps_at start then _ else w) in *.
    destruct (IH (S start) total1 w1) as (w' & t & Hrun & Hlen & Hopt & Hbw).
    exists w', (batch_events start loss ++ t).
    rewrite (bind_ok _ _ _ _ _ _ Hb), Hrun.
    rewrite forward_losses_app, batch_events_losses, optimizer_steps_app,
      batch_events_steps. cbn [app step_losses_from].
    fold (steps_at start).
    split; [| split; [| split]].
    + f_equal. f_equal. rewrite fold_left_app. subst total1.
      destruct (steps_at start); reflexivity.
    + cbn [length]. lia.
    + rewrite length_app, Hopt. destruct (steps_at start); reflexivity.
    + intros i. rewrite in_app_iff, batch_events_backward, Hbw.
      cbn [length]. lia.
Qed.

(** [train_one_epoch] as a whole. *)
Lemma train_one_epoch_run epoch batches w :
  gas <> 0%Z ->
  exists w' t,
    train_one_epoch E self epoch batches w =
    (match length batches with
     | O => Raise ZeroDivisionError
     | S _ => Ok (avg_loss_spec gas (forward_losses t))
     end, w', t) /\
    length (forward_losses t) = length batches /\
    optimizer_steps t = length (step_losses gas (forward_losses t)) /\
    (forall i, In (EvBackward i) t <-> (gas <= 1)%Z /\ i < length batches).
Proof.
  intros Hgas.
  destruct (batch_loop_run batches Hgas 0 0%Q
              {| model_mode := Training; weights := weights w;
                 ckpt_files := ckpt_files w |})
    as (w' & t & Hrun & Hlen & Hopt & Hbw).
  exists w', t. split; [| split; [| split]]; auto.
  - unfold train_one_epoch.
    rewrite (bind_ok (set_mode Training) _ w tt _ [] eq_refl).
    rewrite (bind_ok _ _ _ _ _ _ Hrun).
    unfold avg_loss_spec, step_losses. rewrite Hlen.
    destruct (length batches); unfold raise, ret; simpl; rewrite app_nil_r;
      reflexivity.
  - intros i. rewrite Hbw. lia.
Qed.

(** The optimizer steps an epoch has made before the batch at 0-based
    position [i], for a positive accumulation factor: one after every
    [gas] batches. *)
Definition steps_before (i : nat) : nat := Z.to_nat (Z.of_nat i / gas).

(** The loss line 112 computes for the batch [snd ib] at position [fst ib]
    of an epoch entered with parameters [w0]: the loss function on the
    model as the optimizer steps before that batch have left it. *)
Definition batch_loss (w0 : nat) (ib : nat * batch) : Q :=
  forward_loss E (w0 + steps_before (fst ib)) (snd ib).

(** The batches after which the optimizer steps, with their positions. *)
Definition step_batches (batches : DataLoader) : list (nat * batch) :=
  List.filter (fun ib => steps_at (fst ib)) (enumerate 0 batches).

Lemma steps_before_succ i :
  (1 <= gas)%Z ->
  steps_before (S i) =
  if steps_at i then S (steps_before i) else steps_before i.
Proof.
  intros Hgas. unfold steps_before, steps_at.
  replace (Z.of_nat (S i)) with (Z.of_nat i + 1)%Z by lia.
  rewrite div_succ_step by lia.
  assert (0 <= Z.of_nat i / gas)%Z by (apply Z.div_pos; lia).
  destruct ((Z.of_nat i + 1) mod gas =? 0)%Z.
  - rewrite Z2Nat.inj_add by lia. simpl. lia.
  - rewrite Z.add_0_r. reflexivity.
Qed.

(** The batch loop from position [start], batch by batch: every batch gets
    its forward pass with the parameters of that moment, and the total
    collects the accumulated losses of the optimizer-step batches. *)
Lemma batch_loop_exact base batches :
  (1 <= gas)%Z ->
  forall start total w,
    weights w = base + steps_before start ->
    exists w',
      for_enumerate (train_batch E self) start batches total w =
      (Ok (fold_left Qplus
             (map (fun ib => accumulated gas (batch_loss base ib))
                  (List.filter (fun ib => steps_at (fst ib))
                               (enumerate start batches)))
             total),
       w',
       flat_map (fun ib => batch_events (fst ib) (batch_loss base ib))
                (enumerate start batches)) /\
      weights w' = base + steps_before (start + length batches).
Proof.
  intros Hgas. induction batches as [| b bs IH]; intros start total w Hw.
  - exists w. rewrite Nat.add_0_r. split; [reflexivity | exact Hw].
  - cbn [for_enumerate].
    pose proof (train_batch_run start b total w ltac:(lia)) as Hb.
    cbv zeta in Hb.
    set (w1 := if steps_at start then _ else w) in Hb.
    assert (Hw1 : weights w1 = base + steps_before (S start)).
    { rewrite steps_before_succ by exact Hgas. subst w1.
      destruct (steps_at start); cbn [weights]; lia. }
    destruct (IH (S start)
                 (if steps_at start
                  then (total + accumulated gas (forward_loss E (weights w) b))%Q
                  else total) w1 Hw1) as (w' & Hrun & Hw').
    assert (Hl : batch_loss base (start, b) = forward_loss E (weights w) b).
    { unfold batch_loss. cbn [fst snd]. rewrite Hw. reflexivity. }
    exists w'. rewrite (bind_ok _ _ _ _ _ _ Hb), Hrun.
    unfold enumerate. cbn [length seq combine List.filter flat_map fst].
    fold (enumerate (S start) bs). rewrite Hl.
    split.
    + f_equal. f_equal.
      destruct (steps_at start); cbn [map fold_left]; rewrite ?Hl; reflexivity.
    + rewrite Hw'. f_equal. f_equal. cbn [length]. lia.
Qed.

(** [train_one_epoch], batch by batch. *)
Lemma train_one_epoch_exact epoch batches w :
  (1 <= gas)%Z ->
  batches <> [] ->
  fst (fst (train_one_epoch E self epoch batches w)) =
  Ok (fold_left Qplus
        (map (fun ib => accumulated gas (batch_loss (weights w) ib))
             (step_batches batches)) 0 /
      inject_Z (Z.of_nat (length batches)))%Q /\
  snd (train_one_epoch E self epoch batches w) =
  flat_map (fun ib => batch_events (fst ib) (batch_loss (weights w) ib))
           (enumerate 0 batches).
Proof.
  intros Hgas Hne.
  destruct (batch_loop_exact (weights w) batches Hgas 0 0%Q
              {| model_mode := Training; weights := weights w;
                 ckpt_files := ckpt_files w |})
    as (w' & Hrun & _).
  { unfold steps_before. cbn [weights]. change (Z.of_nat 0) with 0%Z.
    rewrite Z.div_0_l by lia. simpl. lia. }
  unfold train_one_epoch.
  rewrite (bind_ok (set_mode Training) _ w tt _ [] eq_refl).
  rewrite (bind_ok _ _ _ _ _ _ Hrun).
  destruct batches as [| b bs]; [contradiction |].
  cbn [length]. unfold ret. cbn [fst snd app]. rewrite app_nil_r.
  split; reflexivity.
Qed.

Lemma steps_at_factor_one i : gas = 1%Z -> steps_at i = true.
Proof. intros H1. unfold steps_at. rewrite H1, Z.mod_1_r. reflexivity. Qed.

Lemma step_batches_factor_one batches :
  gas = 1%Z -> step_batches batches = enumerate 0 batches.
Proof.
  intros H1. unfold step_batches.
  induction (enumerate 0 batches) as [| ib l IH]; [reflexivity |].
  cbn [List.filter]. rewrite steps_at_factor_one by exact H1.
  f_equal. exact IH.
Qed.

End BatchLoop.

(** [train_one_epoch] emits training events only and writes no file,
    whatever the accumulation factor. *)
Lemma train_one_epoch_emits E self epoch batches :
  emits training_event (train_one_epoch E self epoch batches).
Proof.
  unfold train_one_epoch, train_batch, scale_or_backward, optimizer_step.
  frame.
Qed.

Lemma train_one_epoch_keeps E self epoch batches :
  keeps_files (train_one_epoch E self epoch batches).
Proof.
  unfold train_one_epoch, train_batch, scale_or_backward. frame.
Qed.

(** ** Sample inputs, used to run the definitions *)

Module Sample.

Definition ex (l p : Z) : example :=
  {| text := "a sentence"; label := l; poison_label := p |}.

(** A loss that depends on the batch and on the parameters, a dev score that
    grows with training, and one pooled vector per example. *)
Definition E : collaborators := {|
  forward_loss := fun w b => (Z.of_nat (length b) # 1) + (Z.of_nat w # 1);
  evaluate_classification := fun w _ _ => Z.of_nat w # 10;
  last_hidden_state := fun _ b => map (fun _ => PyTensor [PyTensor [PyFloat 1]]) b;
  pooler_output := fun _ b => map (fun _ => PyList [PyFloat 1]) b
|}%Q.

(** A model that never gets an example right. *)
Definition E_zero : collaborators := {|
  forward_loss := fun _ _ => 1;
  evaluate_classification := fun _ _ _ => 0;
  last_hidden_state := fun _ b => map (fun _ => PyTensor [PyTensor [PyFloat 1]]) b;
  pooler_output := fun _ b => map (fun _ => PyList [PyFloat 1]) b
|}%Q.

Definition trainer (n_epochs gas : Z) (policy : string) (vis : bool) : Trainer :=
  {| epochs := n_epochs; batch_size := 2; ckpt := policy;
     save_path := "./models/checkpoints/1700000000";
     gradient_accumulation_steps := gas; visualize_flag := vis |}.

Definition w0 : world :=
  {| model_mode := Evaluation; weights := 0; ckpt_files := ∅ |}.

Definition dataset : dict (list example) :=
  [("train", [ex 0 0; ex 1 0; ex 1 1; ex 0 0; ex 1 1]);
   ("dev-a", [ex 0 0]); ("dev-b", [ex 1 0]); ("development", [ex 1 1])].

Definition batches : DataLoader := [[ex 0 0; ex 1 0]; [ex 1 1; ex 0 0]; [ex 1 1]].

Definition eval_dataloader : dict DataLoader :=
  [("dev-a", [[ex 0 0]]); ("dev-b", [[ex 1 0]])].

Definition st0 : run_state :=
  {| best_dev_score := 0; self_hidden_state := PyList [] |}.

Definition config : option poisoner_config :=
  Some {| poisoner_name := "badnets"; poisoner_poison_rate := "0.1";
          label_consistency := false |}.

End Sample.

(** ** Claims about [train_one_epoch] *)

(** C1. In [train_one_epoch] with a positive accumulation factor [g], take
    the batch [b] at position [i] and the loss that line 112 computes for
    it. The trace of the epoch is, batch after batch, the forward pass with
    that batch's loss followed by the events of the branch taken, so the
    forward pass of [b] with its loss is in it. When [g > 1], lines 114-115
    bind the loss divided by [g] and run no backward pass, no backward pass
    of batch [i] is in the trace, and the total the epoch averages is made of
    the divided losses of the optimizer-step batches. A backward pass of
    batch [i] is in the trace exactly when [g = 1]; line 117 then leaves the
    loss as it is, in the branch and in the total. *)
Theorem backward_only_without_accumulation E self epoch batches w i b :
  (1 <= gradient_accumulation_steps self)%Z ->
  nth_error batches i = Some b ->
  snd (train_one_epoch E self epoch batches w) =
  flat_map (fun ib => batch_events self (fst ib)
                                   (batch_loss E self (weights w) ib))
           (enumerate 0 batches) /\
  In (EvForward i (batch_loss E self (weights w) (i, b)))
     (snd (train_one_epoch E self epoch batches w)) /\
  ((gradient_accumulation_steps self > 1)%Z ->
   scale_or_backward self i (batch_loss E self (weights w) (i, b)) =
   ret (batch_loss E self (weights w) (i, b) /
        inject_Z (gradient_accumulation_steps self))%Q /\
   ~ In (EvBackward i) (snd (train_one_epoch E self epoch batches w)) /\
   fst (fst (train_one_epoch E self epoch batches w)) =
   Ok (fold_left Qplus
         (map (fun ib => batch_loss E self (weights w) ib /
                         inject_Z (gradient_accumulation_steps self))
              (step_batches self batches)) 0 /
       inject_Z (Z.of_nat (length batches)))%Q) /\
  (In (EvBackward i) (snd (train_one_epoch E self epoch batches w)) <->
   gradient_accumulation_steps self = 1%Z) /\
  (gradient_accumulation_steps self = 1%Z ->
   scale_or_backward self i (batch_loss E self (weights w) (i, b)) =
   (emit (EvBackward i) ;;; ret (batch_loss E self (weights w) (i, b))) /\
   fst (fst (train_one_epoch E self epoch batches w)) =
   Ok (fold_left Qplus
         (map (batch_loss E self (weights w)) (enumerate 0 batches)) 0 /
       inject_Z (Z.of_nat (length batches)))%Q).
Proof.
  intros Hgas Hnth.
  assert (Hi : i < length batches).
  { apply nth_error_Some. rewrite Hnth. discriminate. }
  assert (Hne : batches <> []) by (intros ->; simpl in Hi; lia).
  destruct (train_one_epoch_exact E self epoch batches w Hgas Hne)
    as [Hret Htrace].
  destruct (train_one_epoch_run E self epoch batches w ltac:(lia))
    as (w' & t & Hrun & _ & _ & Hbw).
  assert (Hback : forall j,
             In (EvBackward j) (snd (train_one_epoch E self epoch batches w))
             <-> (gradient_accumulation_steps self <= 1)%Z /\
                 j < length batches).
  { intros j. rewrite Hrun. cbn [snd]. apply Hbw. }
  split; [exact Htrace |]. split; [| split; [| split]].
  - rewrite Htrace. apply in_flat_map. exists (i, b). split.
    + apply (enumerate_nth batches 0 i b Hnth).
    + left. reflexivity.
  - intros Hgt. split; [| split].
    + unfold scale_or_backward.
      destruct (Z.gtb_spec (gradient_accumulation_steps self) 1); [| lia].
      reflexivity.
    + rewrite Hback. lia.
    + rewrite Hret. do 3 f_equal. apply map_ext. intros ib.
      unfold accumulated.
      destruct (Z.gtb_spec (gradient_accumulation_steps self) 1); [| lia].
      reflexivity.
  - rewrite Hback. lia.
  - intros H1. split.
    + unfold scale_or_backward. rewrite H1. reflexivity.
    + rewrite Hret, step_batches_factor_one by exact H1.
      do 3 f_equal. apply map_ext. intros ib.
      unfold accumulated. rewrite H1. reflexivity.
Qed.

(** The second of three batches, with factor 2 (the loss is divided and no
    backward pass runs) and with factor 1 (the backward pass runs). *)
Lemma backward_only_without_accumulation_witness :
  (let self := Sample.trainer 1 2 "best" false in
   let run := train_one_epoch Sample.E self 0 Sample.batches Sample.w0 in
   let loss := batch_loss Sample.E self 0 (1, [Sample.ex 1 1; Sample.ex 0 0]) in
   In (EvForward 1 loss) (snd run) /\
   scale_or_backward self 1 loss = ret (loss / 2)%Q /\
   ~ In (EvBackward 1) (snd run) /\
   fst (fst run) =
   Ok (fold_left Qplus
         (map (fun ib => batch_loss Sample.E self 0 ib / 2)
              (step_batches self Sample.batches)) 0 / 3)%Q) /\
  (let self := Sample.trainer 1 1 "best" false in
   let run := train_one_epoch Sample.E self 0 Sample.batches Sample.w0 in
   let loss := batch_loss Sample.E self 0 (1, [Sample.ex 1 1; Sample.ex 0 0]) in
   In (EvForward 1 loss) (snd run) /\
   In (EvBackward 1) (snd run) /\
   scale_or_backward self 1 loss = (emit (EvBackward 1) ;;; ret loss) /\
   fst (fst run) =
   Ok (fold_left Qplus
         (map (batch_loss Sample.E self 0) (enumerate 0 Sample.batches)) 0 /
       3)%Q).
Proof.
  split.
  - destruct (backward_only_without_accumulation
                Sample.E (Sample.trainer 1 2 "best" false) 0 Sample.batches
                Sample.w0 1 [Sample.ex 1 1; Sample.ex 0 0])
      as (_ & Hfw & Hgt & _ & _); [simpl; lia | reflexivity |].
    destruct Hgt as (Hdiv & Hno & Hret); [simpl; lia |].
    cbv zeta. split; [exact Hfw |]. split; [exact Hdiv |].
    split; [exact Hno | exact Hret].
  - destruct (backward_only_without_accumulation
                Sample.E (Sample.trainer 1 1 "best" false) 0 Sample.batches
                Sample.w0 1 [Sample.ex 1 1; Sample.ex 0 0])
      as (_ & Hfw & _ & Hiff & H1); [simpl; lia | reflexivity |].
    destruct H1 as (Hbranch & Hret); [reflexivity |].
    cbv zeta. split; [exact Hfw |]. split; [apply Hiff; reflexivity |].
    split; [exact Hbranch | exact Hret].
Defined.

(** The second run of the witness, in full: with factor 1 every batch has
    its backward pass and its undivided loss in the total, each loss computed
    with the parameters the earlier steps have left. *)
Example sample_epoch_with_factor_one :
  train_one_epoch Sample.E (Sample.trainer 1 1 "best" false) 0
                  Sample.batches Sample.w0 =
  (Ok ((0 + 2 + (2 + 1) + (1 + 2)) / 3),
   {| model_mode := Training; weights := 3; ckpt_files := ∅ |},
   [EvForward 0 2; EvBackward 0; EvClipGradNorm; EvOptimizerStep;
    EvSchedulerStep; EvZeroGrad;
    EvForward 1 (2 + 1); EvBackward 1; EvClipGradNorm; EvOptimizerStep;
    EvSchedulerStep; EvZeroGrad;
    EvForward 2 (1 + 2); EvBackward 2; EvClipGradNorm; EvOptimizerStep;
    EvSchedulerStep; EvZeroGrad])%Q.
Proof. reflexivity. Qed.

(** With an accumulation factor of 0 or below the test [> 1] fails as well,
    so the backward pass runs; with 0 the modulo of line 119 then raises. *)
Example backward_with_factor_zero :
  train_one_epoch Sample.E (Sample.trainer 1 0 "best" false) 0
                  Sample.batches Sample.w0 =
  (Raise ZeroDivisionError,
   {| model_mode := Training; weights := 0; ckpt_files := ∅ |},
   [EvForward 0 2; EvBackward 0]).
Proof. reflexivity. Qed.



(** Three batches with factor 2: one optimizer step, and the one accumulated
    loss (2/2) is divided by 3. *)
Example average_over_batches_not_steps :
  train_one_epoch Sample.E (Sample.trainer 1 2 "best" false) 0
                  Sample.batches Sample.w0 =
  (Ok ((0 + 2 / 2) / 3),
   {| model_mode := Training; weights := 1; ckpt_files := ∅ |},
   [EvForward 0 2; EvForward 1 2; EvClipGradNorm; EvOptimizerStep;
    EvSchedulerStep; EvZeroGrad; EvForward 2 2])%Q.
Proof. reflexivity. Qed.

(** ** The evaluation splits *)

(** The part of a name before its first separator, the whole name when it has
    none: the specification's "prefix before [-]". *)
Fixpoint prefix_before (sep : ascii) (s : string) : string :=
  match s with
  | EmptyString => EmptyString
  | String c s' =>
      if Ascii.eqb c sep then EmptyString else String c (prefix_before sep s')
  end.

Lemma str_split_head sep s :
  exists pieces, str_split sep s = prefix_before sep s :: pieces.
Proof.
  induction s as [| c s [pieces IH]]; simpl.
  - exists []. reflexivity.
  - destruct (Ascii.eqb c sep).
    + eexists. reflexivity.
    + rewrite IH. eexists. reflexivity.
Qed.

Lemma py_first_split sep s :
  py_first (str_split sep s) = Ok (prefix_before sep s).
Proof. destruct (str_split_head sep s) as [pieces ->]. reflexivity. Qed.

Lemma dict_keys_set {V} (d : dict V) k v key :
  In key (dict_keys (dict_set d k v)) <-> key = k \/ In key (dict_keys d).
Proof.
  induction d as [| [k' v'] d IH]; simpl.
  - intuition.
  - destruct (String.eqb_spec k' k) as [-> | Hne]; simpl.
    + intuition.
    + rewrite IH. intuition.
Qed.

Lemma dict_get_set {V} (d : dict V) k v key :
  dict_get (dict_set d k v) key =
  if String.eqb k key then Some v else dict_get d key.
Proof.
  induction d as [| [k' v'] d IH]; simpl.
  - reflexivity.
  - destruct (String.eqb_spec k' k) as [-> | Hne]; simpl.
    + destruct (String.eqb k key); reflexivity.
    + rewrite IH. destruct (String.eqb_spec k' key) as [-> | Hne'].
      * destruct (String.eqb_spec k key); [congruence | reflexivity].
      * reflexivity.
Qed.

Lemma dict_get_key {V} (d : dict V) key :
  In key (dict_keys d) -> exists v, dict_get d key = Some v.
Proof.
  induction d as [| [k' v'] d IH]; simpl; [tauto |].
  intros [-> | H].
  - rewrite String.eqb_refl. eauto.
  - destruct (String.eqb k' key); eauto.
Qed.

Lemma dev_splits_loop_spec (dataloader : dict DataLoader) items :
  (forall key, In key (dict_keys items) -> In key (dict_keys dataloader)) ->
  forall acc,
    (forall key, In key (dict_keys acc) ->
                 dict_get acc key = dict_get dataloader key) ->
    exists eval_dataloader,
      dev_splits_loop dataloader items acc = Ok eval_dataloader /\
      (forall key,
          In key (dict_keys eval_dataloader) <->
          In key (dict_keys acc) \/
          (In key (dict_keys items) /\ prefix_before "-" key = "dev")) /\
      (forall key, In key (dict_keys eval_dataloader) ->
                   dict_get eval_dataloader key = dict_get dataloader key).
Proof.
  induction items as [| [key0 item] items IH]; intros Hsub acc Hacc.
  - exists acc. simpl. split; [reflexivity |]. split; [| exact Hacc].
    intros key. tauto.
  - cbn [dev_splits_loop]. rewrite py_first_split.
    assert (Hsub' : forall key, In key (dict_keys items) ->
                                In key (dict_keys dataloader)).
    { intros key H. apply Hsub. right. exact H. }
    destruct (String.eqb_spec (prefix_before "-" key0) "dev") as [Hdev | Hdev].
    + destruct (dict_get_key dataloader key0) as [dl Hdl].
      { apply Hsub. left. reflexivity. }
      unfold py_getitem. rewrite Hdl.
      destruct (IH Hsub' (dict_set acc key0 dl)) as (r & Hr & Hkeys & Hget).
      { intros key Hin. rewrite dict_get_set.
        destruct (String.eqb_spec key0 key) as [<- | Hne]; [congruence |].
        apply dict_keys_set in Hin. destruct Hin as [-> | Hin]; [congruence |].
        apply Hacc. exact Hin. }
      exists r. split; [exact Hr |]. split; [| exact Hget].
      intros key. rewrite Hkeys, dict_keys_set. simpl. intuition (subst; auto).
    + destruct (IH Hsub' acc Hacc) as (r & Hr & Hkeys & Hget).
      exists r. split; [exact Hr |]. split; [| exact Hget].
      intros key. rewrite Hkeys. simpl. intuition (subst; auto). congruence.
Qed.

(** ** [compute_hidden] *)

(** The pass fails at its first batch: line 238 has rebound [hidden_state] to
    a tensor, and line 249 calls [extend] on it. Line 250 is not reached, so
    the model stays in evaluation mode. Only an empty dataloader gets
    through. *)
Lemma compute_hidden_run E dl w :
  compute_hidden E dl w =
  match dl with
  | [] =>
      (Ok (PyList [], [], []),
       {| model_mode := Training; weights := weights w;
          ckpt_files := ckpt_files w |}, [])
  | _ :: _ =>
      (Raise AttributeError,
       {| model_mode := Evaluation; weights := weights w;
          ckpt_files := ckpt_files w |}, [])
  end.
Proof. destruct dl; reflexivity. Qed.

Lemma compute_hidden_emits P E dl : emits P (compute_hidden E dl).
Proof. intros w. rewrite compute_hidden_run. destruct dl; constructor. Qed.

Lemma compute_hidden_keeps E dl : keeps_files (compute_hidden E dl).
Proof. intros w. rewrite compute_hidden_run. destruct dl; reflexivity. Qed.

(** ** More on running the monad *)

Lemma emits_torch_save P path :
  (forall sd, P (EvTorchSave path sd)) -> emits P (torch_save path).
Proof. intros H w. simpl. auto. Qed.

Lemma emits_torch_load P path :
  P (EvTorchLoad path) -> emits P (torch_load path).
Proof.
  intros H w. unfold torch_load. destruct (ckpt_files w !! path); simpl; auto.
Qed.

Lemma keeps_torch_load path : keeps_files (torch_load path).
Proof.
  intros w. unfold torch_load. destruct (ckpt_files w !! path); reflexivity.
Qed.

Lemma bind_ext {A B} (c : M A) (k1 k2 : A -> M B) w :
  (forall a w1, k1 a w1 = k2 a w1) -> bind c k1 w = bind c k2 w.
Proof.
  intros H. unfold bind. destruct (c w) as [[[a | e] w1] t1]; [| reflexivity].
  rewrite H. reflexivity.
Qed.

Lemma bind_assoc {A B C} (c : M A) (k : A -> M B) (h : B -> M C) w :
  bind (bind c k) h w = bind c (fun a => bind (k a) h) w.
Proof.
  unfold bind. destruct (c w) as [[[a | e] w1] t1]; [| reflexivity].
  destruct (k a w1) as [[[b | e] w2] t2]; [| reflexivity].
  destruct (h b w2) as [[r w3] t3]. rewrite app_assoc. reflexivity.
Qed.

Lemma bind_ret_r {A} (c : M A) w : bind c ret w = c w.
Proof.
  unfold bind, ret. destruct (c w) as [[[a | e] w1] t1]; [| reflexivity].
  rewrite app_nil_r. reflexivity.
Qed.

Lemma for_enumerate_app {A St} (body : nat -> A -> St -> M St) xs ys :
  forall start s w,
    for_enumerate body start (xs ++ ys) s w =
    bind (for_enumerate body start xs s)
         (for_enumerate body (start + length xs) ys) w.
Proof.
  induction xs as [| x xs IH]; intros start s w; simpl.
  - rewrite Nat.add_0_r. unfold bind, ret.
    destruct (for_enumerate body start ys s w) as [[r w'] t]. reflexivity.
  - rewrite bind_assoc. apply bind_ext. intros s' w1. rewrite IH.
    replace (S start + length xs) with (start + S (length xs)) by lia.
    reflexivity.
Qed.

Lemma for_range_succ {St} n (body : nat -> St -> M St) s w :
  for_range (S n) body s w = bind (for_range n body s) (body n) w.
Proof.
  unfold for_range. rewrite seq_S, for_enumerate_app. apply bind_ext.
  intros s' w1. simpl. apply bind_ret_r.
Qed.

(** ** Traces of training events *)

Lemma saves_app t1 t2 : saves (t1 ++ t2) = saves t1 ++ saves t2.
Proof. apply flat_map_app. Qed.

Lemma dev_scores_app t1 t2 : dev_scores (t1 ++ t2) = dev_scores t1 ++ dev_scores t2.
Proof. apply flat_map_app. Qed.

Lemma training_saves t : Forall training_event t -> saves t = [].
Proof.
  induction 1 as [| ev t Hev _ IH]; [reflexivity |].
  destruct ev; simpl in *; auto; contradiction.
Qed.

Lemma training_dev_scores t : Forall training_event t -> dev_scores t = [].
Proof.
  induction 1 as [| ev t Hev _ IH]; [reflexivity |].
  destruct ev; simpl in *; auto; contradiction.
Qed.

Lemma Qgtb_true x y : Qgtb x y = true <-> (y < x)%Q.
Proof.
  unfold Qgtb. rewrite Qlt_alt. destruct (y ?= x)%Q; split; congruence.
Qed.

Lemma Qgtb_false x y : Qgtb x y = false <-> (x <= y)%Q.
Proof.
  split.
  - intros H. destruct (Qlt_le_dec y x) as [Hlt | Hle]; [| exact Hle].
    apply Qgtb_true in Hlt. congruence.
  - intros H. destruct (Qgtb x y) eqn:Hg; [| reflexivity].
    apply Qgtb_true in Hg. apply Qle_not_lt in H. contradiction.
Qed.

(** ** The epoch loop of [Trainer.train] *)

Section EpochLoop.

Variable E : collaborators.
Variable self : Trainer.
Variable train_dataloader : DataLoader.
Variable eval_dataloader : dict DataLoader.
Variable metrics : list string.
Variable vis : vis_attrs.

Let epoch_body := train_epoch E self (compute_hidden E) train_dataloader
                              eval_dataloader metrics vis.
Let epochs_upto := train_epochs E self (compute_hidden E) train_dataloader
                                eval_dataloader metrics vis.
Let best_path := model_checkpoint self (ckpt self).

(** Whether a round that saw dev score [s] with best score [best] writes the
    checkpoint. *)
Definition improves (s best : Q) : bool :=
  Qgtb s best && String.eqb (ckpt self) "best".

(** One round of the epoch loop. It evaluates at most once. When it
    completes it has evaluated once, the best score is the larger of the old
    one and the new score, and the checkpoint is written exactly when the
    score improved under policy "best". When it fails it has written
    nothing. *)
Lemma train_epoch_spec epoch st w r w' t :
  epoch_body epoch st w = (r, w', t) ->
  length (dev_scores t) <= 1 /\
  (forall st',
      r = Ok st' ->
      exists s,
        dev_scores t = [s] /\
        best_dev_score st' = (if Qgtb s (best_dev_score st) then s
                              else best_dev_score st) /\
        saves t = (if improves s (best_dev_score st)
                   then [(best_path, weights w')] else []) /\
        ckpt_files w' = (if improves s (best_dev_score st)
                         then <[best_path := weights w']> (ckpt_files w)
                         else ckpt_files w)) /\
  (forall e, r = Raise e -> saves t = [] /\ ckpt_files w' = ckpt_files w).
Proof.
  subst epoch_body best_path. unfold train_epoch, improves.
  pose proof (train_one_epoch_emits E self epoch train_dataloader w) as Ht1.
  pose proof (train_one_epoch_keeps E self epoch train_dataloader w) as Hf1.
  destruct (train_one_epoch E self epoch train_dataloader w)
    as [[[loss | e1] w1] t1] eqn:H1; simpl in Ht1, Hf1.
  - rewrite (bind_ok _ _ _ _ _ _ H1).
    pose proof (training_saves _ Ht1) as Hs1.
    pose proof (training_dev_scores _ Ht1) as Hd1.
    destruct (visualize_flag self);
      [ destruct (vis_dataset vis); [destruct (self_hidden_state st) |] |];
      destruct (Qgtb (evaluate_classification E (weights w1) eval_dataloader
                                              metrics) (best_dev_score st))
               eqn:Hgt;
      destruct (String.eqb (ckpt self) "best") eqn:Hbest;
      unfold bind, emit, evaluate, get_world, ret, lift, torch_save;
      simpl; rewrite ?Hgt; simpl; rewrite ?Hbest; simpl;
      intros [= <- <- <-];
      rewrite !saves_app, !dev_scores_app, Hs1, Hd1; simpl;
      (split; [lia |]); (split; [| intros e; try discriminate; auto]);
      intros st' [= <-]; eexists; rewrite ?Hgt, ?Hbest, ?Hf1; simpl;
      repeat split; reflexivity.
  - rewrite (bind_raise _ _ _ _ _ _ H1). intros [= <- <- <-].
    rewrite (training_dev_scores _ Ht1), (training_saves _ Ht1). simpl.
    split; [lia |]. split; [discriminate | auto].
Qed.

Lemma train_epochs_zero st w : epochs_upto 0 st w = (Ok st, w, []).
Proof. reflexivity. Qed.

Lemma train_epochs_succ k st w :
  epochs_upto (S k) st w = bind (epochs_upto k st) (epoch_body k) w.
Proof. apply for_range_succ. Qed.

(** After [k] completed rounds: [k] evaluations were made, the best score
    has not gone down, it bounds every score seen, and it is the initial
    value or one of the scores seen. *)
Lemma train_epochs_scores k :
  forall st w st' w' t,
    epochs_upto k st w = (Ok st', w', t) ->
    length (dev_scores t) = k /\
    (best_dev_score st <= best_dev_score st')%Q /\
    (forall s, In s (dev_scores t) -> (s <= best_dev_score st')%Q) /\
    (best_dev_score st' = best_dev_score st \/
     In (best_dev_score st') (dev_scores t)).
Proof.
  induction k as [| k IH]; intros st w st' w' t Hrun.
  - rewrite train_epochs_zero in Hrun. injection Hrun as <- <- <-. simpl.
    split; [reflexivity |]. split; [apply Qle_refl |].
    split; [intros s [] | left; reflexivity].
  - rewrite train_epochs_succ in Hrun. apply bind_run in Hrun.
    destruct Hrun as [(st_k & w_k & t_k & t_e & Hk & He & ->) | (e & _ & He)];
      [| discriminate].
    destruct (IH _ _ _ _ _ Hk) as (Hlen & Hmono & Hmax & Hin).
    destruct (train_epoch_spec _ _ _ _ _ _ He) as (_ & Hok & _).
    destruct (Hok _ eq_refl) as (s & Hs & Hbest & _).
    rewrite dev_scores_app, Hs, length_app. simpl.
    split; [lia |].
    destruct (Qgtb s (best_dev_score st_k)) eqn:Hgt; rewrite Hbest.
    + apply Qgtb_true in Hgt.
      split; [eapply Qle_trans; [exact Hmono | apply Qlt_le_weak; exact Hgt] |].
      split.
      * intros s' Hin'. apply in_app_or in Hin'.
        destruct Hin' as [Hin' | [<- | []]]; [| apply Qle_refl].
        eapply Qle_trans; [apply Hmax; exact Hin' | apply Qlt_le_weak; exact Hgt].
      * right. apply in_or_app. right. left. reflexivity.
    + apply Qgtb_false in Hgt. split; [exact Hmono |]. split.
      * intros s' Hin'. apply in_app_or in Hin'.
        destruct Hin' as [Hin' | [<- | []]]; [apply Hmax; exact Hin' | exact Hgt].
      * destruct Hin as [Heq | Hin]; [left; exact Heq |].
        right. apply in_or_app. left. exact Hin.
Qed.

(** Under any policy other than "best" the epoch loop writes nothing. *)
Lemma train_epochs_other_policy k :
  String.eqb (ckpt self) "best" = false ->
  forall st w r w' t,
    epochs_upto k st w = (r, w', t) ->
    saves t = [] /\ ckpt_files w' = ckpt_files w.
Proof.
  intros Hpolicy. induction k as [| k IH]; intros st w r w' t Hrun.
  - rewrite train_epochs_zero in Hrun. injection Hrun as <- <- <-. auto.
  - rewrite train_epochs_succ in Hrun. apply bind_run in Hrun.
    destruct Hrun as [(st_k & w_k & t_k & t_e & Hk & He & ->) | (e & Hk & _)];
      [| eapply IH; exact Hk].
    destruct (IH _ _ _ _ _ Hk) as (Hs & Hf).
    destruct (train_epoch_spec _ _ _ _ _ _ He) as (_ & Hok & Herr).
    rewrite saves_app, Hs. unfold improves in Hok. rewrite Hpolicy in Hok.
    destruct r as [st' | e].
    + destruct (Hok _ eq_refl) as (s & _ & _ & Hsave & Hfiles).
      rewrite andb_false_r in Hsave, Hfiles. rewrite Hsave, Hfiles. auto.
    + destruct (Herr _ eq_refl) as (Hsave & Hfiles).
      rewrite Hsave, Hfiles. auto.
Qed.

(** While no dev score exceeds the best score the loop started with, the
    loop writes nothing and the best score stays. *)
Lemma train_epochs_no_improvement k :
  forall st w r w' t,
    epochs_upto k st w = (r, w', t) ->
    (forall s, In s (dev_scores t) -> (s <= best_dev_score st)%Q) ->
    saves t = [] /\ ckpt_files w' = ckpt_files w /\
    (forall st', r = Ok st' -> best_dev_score st' = best_dev_score st).
Proof.
  induction k as [| k IH]; intros st w r w' t Hrun Hlow.
  - rewrite train_epochs_zero in Hrun. injection Hrun as <- <- <-.
    split; [reflexivity |]. split; [reflexivity |]. intros st' [= <-]. reflexivity.
  - rewrite train_epochs_succ in Hrun. apply bind_run in Hrun.
    destruct Hrun as [(st_k & w_k & t_k & t_e & Hk & He & ->) | (e & Hk & ->)].
    + rewrite dev_scores_app in Hlow.
      destruct (IH _ _ _ _ _ Hk) as (Hs & Hf & Hb).
      { intros s Hin. apply Hlow. apply in_or_app. left. exact Hin. }
      specialize (Hb _ eq_refl).
      destruct (train_epoch_spec _ _ _ _ _ _ He) as (_ & Hok & Herr).
      rewrite saves_app, Hs. destruct r as [st' | e].
      * destruct (Hok _ eq_refl) as (s & Hscore & Hbest & Hsave & Hfiles).
        assert (Hgt : Qgtb s (best_dev_score st_k) = false).
        { apply Qgtb_false. rewrite Hb. apply Hlow. apply in_or_app. right.
          rewrite Hscore. left. reflexivity. }
        unfold improves in Hsave, Hfiles. rewrite Hgt in Hbest, Hsave, Hfiles.
        simpl in Hsave, Hfiles. rewrite Hsave, Hfiles.
        split; [reflexivity |]. split; [exact Hf |].
        intros st'' [= <-]. congruence.
      * destruct (Herr _ eq_refl) as (Hsave & Hfiles). rewrite Hsave, Hfiles.
        split; [reflexivity |]. split; [exact Hf |]. discriminate.
    + destruct (IH _ _ _ _ _ Hk Hlow) as (Hs & Hf & _).
      split; [exact Hs |]. split; [exact Hf |]. discriminate.
Qed.

End EpochLoop.

(** ** The phases of [Trainer.train] *)

Ltac frame_train :=
  repeat first
    [ progress intros
    | progress cbv beta iota
    | apply compute_hidden_emits | apply compute_hidden_keeps
    | apply train_one_epoch_keeps
    | match goal with
      | H : forall ev, training_event ev -> ?P ev
        |- emits ?P (train_one_epoch _ _ _ _) =>
          apply (emits_weaken training_event P _ H), train_one_epoch_emits
      end
    | apply keeps_torch_load
    | apply emits_torch_load; solve [auto | simpl; auto]
    | apply emits_torch_save; solve [auto | simpl; auto]
    | apply emits_emit; solve [auto | simpl; auto]
    | apply emits_bind | apply keeps_bind
    | apply emits_for_enumerate | apply keeps_for_enumerate
    | apply emits_for_range
    | solve [auto with monad_frame]
    | match goal with
      | |- emits _ (if ?b then _ else _) => destruct b
      | |- keeps_files (if ?b then _ else _) => destruct b
      | |- emits _ (match ?x with _ => _ end) => destruct x
      | |- keeps_files (match ?x with _ => _ end) => destruct x
      end ].

Section Phases.

Variable E : collaborators.
Variable self : Trainer.
Variable P : event -> Prop.

(** The [compute_hidden] that [self] dispatches to, and what it may emit. *)
Variable cm : DataLoader -> M (pyobj * list Z * list Z).
Hypothesis cm_emits : forall dl, emits P (cm dl).

Lemma train_setup_emits_with dataset metrics config :
  P EvZeroGrad -> emits P (train_setup self cm dataset metrics config).
Proof.
  intros HP. unfold train_setup, register, prepare_visualization. frame_train.
Qed.

Lemma train_epochs_emits_with tdl edl metrics vis k st :
  (forall ev, training_event ev -> P ev) ->
  (forall epoch loss, P (EvLogEpoch epoch loss)) ->
  (forall s, P (EvEvaluate (dict_keys edl) s)) ->
  (forall sd, P (EvTorchSave (model_checkpoint self (ckpt self)) sd)) ->
  emits P (train_epochs E self cm tdl edl metrics vis k st).
Proof.
  intros Htrain Hlog Heval Hsave.
  unfold train_epochs, train_epoch, evaluate. frame_train.
Qed.

End Phases.

Section TrainerPhases.

Variable E : collaborators.
Variable self : Trainer.
Variable P : event -> Prop.

Lemma train_setup_emits dataset metrics config :
  P EvZeroGrad ->
  emits P (train_setup self (compute_hidden E) dataset metrics config).
Proof. apply train_setup_emits_with. intros dl. apply compute_hidden_emits. Qed.

Lemma train_setup_keeps dataset metrics config :
  keeps_files (train_setup self (compute_hidden E) dataset metrics config).
Proof. unfold train_setup, register, prepare_visualization. frame_train. Qed.

Lemma train_epochs_emits tdl edl metrics vis k st :
  (forall ev, training_event ev -> P ev) ->
  (forall epoch loss, P (EvLogEpoch epoch loss)) ->
  (forall s, P (EvEvaluate (dict_keys edl) s)) ->
  (forall sd, P (EvTorchSave (model_checkpoint self (ckpt self)) sd)) ->
  emits P (train_epochs E self (compute_hidden E) tdl edl metrics vis k st).
Proof. apply train_epochs_emits_with. intros dl. apply compute_hidden_emits. Qed.

Lemma save_and_visualize_emits vis hidden :
  (forall p, P (EvMakedirs p)) ->
  (forall p, P (EvNpSave p)) ->
  (forall p, P (EvSavefig p)) ->
  (forall l pl f, P (EvVisualize hidden l pl f)) ->
  emits P (save_and_visualize vis hidden).
Proof.
  intros Hmk Hnp Hfig Hvis. unfold save_and_visualize, visualize. frame_train.
Qed.

Lemma train_finish_emits vis st :
  (forall p, P (EvMakedirs p)) ->
  (forall p, P (EvNpSave p)) ->
  (forall p, P (EvSavefig p)) ->
  (forall l pl f, P (EvVisualize (self_hidden_state st) l pl f)) ->
  (forall sd, P (EvTorchSave (model_checkpoint self (ckpt self)) sd)) ->
  P EvLogFinished ->
  P (EvTorchLoad (model_checkpoint self (ckpt self))) ->
  emits P (train_finish self vis st).
Proof.
  intros Hmk Hnp Hfig Hvis Hsave Hfin Hload.
  unfold train_finish. frame_train.
Qed.

Lemma save_and_visualize_keeps vis hidden :
  keeps_files (save_and_visualize vis hidden).
Proof.
  unfold save_and_visualize, visualize. frame_train.
Qed.

End TrainerPhases.

(** How a run of [train] splits into its three phases. *)
Lemma train_run E self cm dataset metrics config w r w' t :
  train E self cm dataset metrics config w = (r, w', t) ->
  (exists e,
      train_setup self cm dataset metrics config w = (Raise e, w', t) /\
      r = Raise e) \/
  (exists tdl edl vis st0 w1 t0,
      train_setup self cm dataset metrics config w =
      (Ok (tdl, edl, vis, st0), w1, t0) /\
      ((exists e t1,
           train_epochs E self cm tdl edl metrics vis
                        (Z.to_nat (epochs self)) st0 w1 = (Raise e, w', t1) /\
           t = t0 ++ t1 /\ r = Raise e) \/
       (exists st w2 t1 t2,
           train_epochs E self cm tdl edl metrics vis
                        (Z.to_nat (epochs self)) st0 w1 = (Ok st, w2, t1) /\
           train_finish self vis st w2 = (r, w', t2) /\
           t = t0 ++ t1 ++ t2))).
Proof.
  unfold train. intros H. apply bind_run in H.
  destruct H as [([[[tdl edl] vis] st0] & w1 & t0 & t' & Hs & Hk & ->)
                | (e & Hs & ->)].
  - right. exists tdl, edl, vis, st0, w1, t0. split; [exact Hs |].
    apply bind_run in Hk.
    destruct Hk as [(st & w2 & t1 & t2 & Hl & Hf & ->) | (e & Hl & ->)].
    + right. exists st, w2, t1, t2. auto.
    + left. exists e, t'. auto.
  - left. exists e. auto.
Qed.

(** What [train_setup] hands to the epoch loop. *)
Lemma train_setup_ok self cm dataset metrics config w tdl edl vis st0 w1 t0 :
  train_setup self cm dataset metrics config w =
  (Ok (tdl, edl, vis, st0), w1, t0) ->
  best_dev_score st0 = 0%Q /\
  exists dataloader,
    wrap_dataset dataset (batch_size self) = Ok dataloader /\
    py_getitem dataloader "train" = Ok tdl /\
    dev_splits dataloader = Ok edl.
Proof.
  unfold train_setup. intros H.
  apply bind_run in H.
  destruct H as [(dataloader & ? & ? & ? & Hw & H & ->) | (? & _ & [=])].
  unfold lift in Hw. injection Hw as Hw <- <-.
  apply bind_run in H.
  destruct H as [(tdl' & ? & ? & ? & Ht & H & ->) | (? & _ & [=])].
  unfold lift in Ht. injection Ht as Ht <- <-.
  apply bind_run in H.
  destruct H as [(edl' & ? & ? & ? & He & H & ->) | (? & _ & [=])].
  unfold lift in He. injection He as He <- <-.
  apply bind_run in H.
  destruct H as [([] & ? & ? & ? & _ & H & ->) | (? & _ & [=])].
  apply bind_run in H.
  destruct H as [([h v] & ? & ? & ? & _ & H & ->) | (? & _ & [=])].
  unfold ret in H. injection H as <- <- <- <- <- <-.
  split; [reflexivity |]. exists dataloader. auto.
Qed.

(** Events of the visualisation block, lines 177-185 and [visualize]. *)
Definition visualization_event (ev : event) : Prop :=
  match ev with
  | EvMakedirs _ | EvNpSave _ | EvSavefig _ | EvVisualize _ _ _ _ => True
  | _ => False
  end.

Lemma visualization_saves t : Forall visualization_event t -> saves t = [].
Proof.
  induction 1 as [| ev t Hev _ IH]; [reflexivity |].
  destruct ev; simpl in *; auto; contradiction.
Qed.

Lemma visualization_dev_scores t :
  Forall visualization_event t -> dev_scores t = [].
Proof.
  induction 1 as [| ev t Hev _ IH]; [reflexivity |].
  destruct ev; simpl in *; auto; contradiction.
Qed.

Lemma not_in_trace (t : list event) ev :
  Forall (fun ev' => ev' <> ev) t -> ~ In ev t.
Proof. rewrite List.Forall_forall. intros H Hin. exact (H ev Hin eq_refl). Qed.

Section Finish.

Variable self : Trainer.
Variable vis : vis_attrs.
Variable st : run_state.

(** The visualisation block at the head of [train_finish]. *)
Definition finish_visualization : M unit :=
  if visualize_flag self
  then save_and_visualize vis (self_hidden_state st)
  else ret tt.

Lemma finish_visualization_emits :
  emits visualization_event finish_visualization.
Proof.
  unfold finish_visualization. destruct (visualize_flag self).
  - apply save_and_visualize_emits; simpl; auto.
  - apply emits_ret.
Qed.

Lemma finish_visualization_keeps : keeps_files finish_visualization.
Proof.
  unfold finish_visualization. destruct (visualize_flag self).
  - apply save_and_visualize_keeps.
  - apply keeps_ret.
Qed.

(** Under policy "last", a [train_finish] that completes has written the
    checkpoint once, after the visualisation block, and then read it back. *)
Lemma train_finish_last w w' t :
  ckpt self = "last" ->
  train_finish self vis st w = (Ok tt, w', t) ->
  exists tv sd,
    t = tv ++ [EvTorchSave (model_checkpoint self "last") sd; EvLogFinished;
               EvTorchLoad (model_checkpoint self "last")] /\
    Forall visualization_event tv.
Proof.
  intros Hckpt. unfold train_finish. fold finish_visualization.
  pose proof (finish_visualization_emits w) as Hv.
  destruct (finish_visualization w) as [[[[] | e] wv] tv] eqn:HV; simpl in Hv.
  - rewrite (bind_ok _ _ _ _ _ _ HV), Hckpt.
    unfold bind, torch_save, emit, torch_load, load_state_dict. simpl.
    rewrite lookup_insert_eq. simpl. intros [= <- <-].
    exists tv, (weights wv). auto.
  - rewrite (bind_raise _ _ _ _ _ _ HV). discriminate.
Qed.

(** Under policy "best", with no checkpoint file at the path, [train_finish]
    writes none and fails; once it has logged the end of training the
    failure is that of the load. *)
Lemma train_finish_best w r w' t :
  ckpt self = "best" ->
  ckpt_files w !! model_checkpoint self "best" = None ->
  train_finish self vis st w = (r, w', t) ->
  saves t = [] /\
  exists e, r = Raise e /\ (In EvLogFinished t -> e = FileNotFoundError).
Proof.
  intros Hckpt Hnone. unfold train_finish. fold finish_visualization.
  pose proof (finish_visualization_emits w) as Hv.
  pose proof (finish_visualization_keeps w) as Hf.
  destruct (finish_visualization w) as [[[[] | e] wv] tv] eqn:HV;
    simpl in Hv, Hf.
  - rewrite (bind_ok _ _ _ _ _ _ HV), Hckpt.
    unfold bind, emit, torch_load, ret. simpl. rewrite Hf, Hnone. simpl.
    intros [= <- <- <-]. rewrite saves_app, (visualization_saves _ Hv).
    split; [reflexivity |]. exists FileNotFoundError. auto.
  - rewrite (bind_raise _ _ _ _ _ _ HV). intros [= <- <- <-].
    split; [apply visualization_saves; exact Hv |].
    exists e. split; [reflexivity |]. intros Hin. exfalso.
    rewrite List.Forall_forall in Hv. apply (Hv _ Hin).
Qed.

End Finish.

(** ** Claims about the checkpoints of [train] *)

(** C4. The best dev score after [k+1] rounds of the epoch loop of [train] is
    at least the one after [k] rounds, from whatever state the loop starts
    ([train] starts it at 0). *)
Theorem best_dev_score_monotone E self tdl edl metrics vis st0 w k st_k st_k1 :
  fst (fst (train_epochs E self (compute_hidden E) tdl edl metrics vis
                         k st0 w)) = Ok st_k ->
  fst (fst (train_epochs E self (compute_hidden E) tdl edl metrics vis
                         (S k) st0 w)) = Ok st_k1 ->
  (best_dev_score st_k <= best_dev_score st_k1)%Q.
Proof.
  intros Hk Hk1. rewrite train_epochs_succ in Hk1.
  destruct (train_epochs E self (compute_hidden E) tdl edl metrics vis k st0 w)
    as [[r w_k] t_k] eqn:Hrun.
  simpl in Hk. subst r. rewrite (bind_ok _ _ _ _ _ _ Hrun) in Hk1.
  destruct (train_epoch E self (compute_hidden E) tdl edl metrics vis k
                        st_k w_k) as [[r w'] t] eqn:He.
  simpl in Hk1. subst r.
  destruct (train_epoch_spec _ _ _ _ _ _ _ _ _ _ _ _ He) as (_ & Hok & _).
  destruct (Hok _ eq_refl) as (s & _ & Hbest & _). rewrite Hbest.
  destruct (Qgtb s (best_dev_score st_k)) eqn:Hgt.
  - apply Qlt_le_weak, Qgtb_true, Hgt.
  - apply Qle_refl.
Qed.

Lemma best_dev_score_monotone_witness :
  (best_dev_score {| best_dev_score := 3 # 10; self_hidden_state := PyList [] |}
   <= best_dev_score {| best_dev_score := 6 # 10;
                        self_hidden_state := PyList [] |})%Q.
Proof.
  apply (best_dev_score_monotone
           Sample.E (Sample.trainer 2 1 "best" false) Sample.batches
           Sample.eval_dataloader ["accuracy"] (snd no_visualization)
           Sample.st0 Sample.w0 1); vm_compute; reflexivity.
Defined.

(** The claim of C3 as the specification words it, for one round of the epoch
    loop with trace [t] run after earlier rounds with trace [t_before]: the
    checkpoint is written exactly when the round's dev score exceeds every
    dev score of the earlier rounds. *)
Definition written_iff_exceeds_earlier (t_before t : list event) : Prop :=
  saves t <> [] <->
  exists s, dev_scores t = [s] /\
            forall s', In s' (dev_scores t_before) -> (s' < s)%Q.

(** C3, as the code has it. Under policy "best", a completed round of the
    epoch loop of [train] writes the best checkpoint exactly when its dev
    score exceeds 0, the value the best score starts from, and every dev
    score of the earlier rounds; the write goes to the one "best" path and
    replaces what was there. *)
Theorem best_checkpoint_written_iff
        E self dataset metrics config w tdl edl vis st0 w1 t0
        k st_k w_k t_k st' w' t :
  ckpt self = "best" ->
  train_setup self (compute_hidden E) dataset metrics config w =
  (Ok (tdl, edl, vis, st0), w1, t0) ->
  train_epochs E self (compute_hidden E) tdl edl metrics vis k st0 w1 =
  (Ok st_k, w_k, t_k) ->
  train_epoch E self (compute_hidden E) tdl edl metrics vis k st_k w_k =
  (Ok st', w', t) ->
  exists s,
    dev_scores t = [s] /\
    (saves t <> [] <->
     (0 < s)%Q /\ forall s', In s' (dev_scores t_k) -> (s' < s)%Q) /\
    (saves t <> [] ->
     saves t = [(model_checkpoint self "best", weights w')] /\
     ckpt_files w' = <[model_checkpoint self "best" := weights w']> (ckpt_files w_k)).
Proof.
  intros Hckpt Hsetup Hk He.
  destruct (train_setup_ok _ _ _ _ _ _ _ _ _ _ _ _ Hsetup) as (Hzero & _).
  destruct (train_epochs_scores _ _ _ _ _ _ _ _ _ _ _ _ Hk)
    as (_ & Hmono & Hmax & Hin).
  destruct (train_epoch_spec _ _ _ _ _ _ _ _ _ _ _ _ He) as (_ & Hok & _).
  destruct (Hok _ eq_refl) as (s & Hs & _ & Hsave & Hfiles).
  unfold improves in Hsave, Hfiles. rewrite Hckpt in Hsave, Hfiles.
  rewrite Hzero in Hmono, Hin.
  exists s. split; [exact Hs |]. simpl in Hsave, Hfiles.
  destruct (Qgtb s (best_dev_score st_k)) eqn:Hgt; simpl in Hsave, Hfiles.
  - apply Qgtb_true in Hgt. rewrite Hsave. split; [| intros _; auto].
    split; [intros _ | discriminate]. split.
    + eapply Qle_lt_trans; [exact Hmono | exact Hgt].
    + intros s' Hs'. eapply Qle_lt_trans; [apply Hmax; exact Hs' | exact Hgt].
  - apply Qgtb_false in Hgt. rewrite Hsave. split; [| congruence].
    split; [congruence |]. intros [Hpos Hall]. exfalso.
    destruct Hin as [Heq | Hin'].
    + rewrite Heq in Hgt. exact (Qlt_not_le _ _ Hpos Hgt).
    + exact (Qlt_not_le _ _ (Hall _ Hin') Hgt).
Qed.

Lemma best_checkpoint_written_iff_witness :
  let self := Sample.trainer 2 1 "best" false in
  exists tdl edl vis st0 w1 t0 st_k w_k t_k st' w' t,
    train_setup self (compute_hidden Sample.E) Sample.dataset ["accuracy"] None
                Sample.w0 = (Ok (tdl, edl, vis, st0), w1, t0) /\
    train_epochs Sample.E self (compute_hidden Sample.E) tdl edl ["accuracy"]
                 vis 1 st0 w1 = (Ok st_k, w_k, t_k) /\
    train_epoch Sample.E self (compute_hidden Sample.E) tdl edl ["accuracy"]
                vis 1 st_k w_k = (Ok st', w', t) /\
    exists s,
      dev_scores t = [s] /\
      (saves t <> [] <->
       (0 < s)%Q /\ forall s', In s' (dev_scores t_k) -> (s' < s)%Q) /\
      (saves t <> [] ->
       saves t = [(model_checkpoint self "best", weights w')] /\
       ckpt_files w' =
       <[model_checkpoint self "best" := weights w']> (ckpt_files w_k)).
Proof.
  intros self.
  pose (setup := train_setup self (compute_hidden Sample.E) Sample.dataset
                             ["accuracy"] None Sample.w0).
  pose (x := match fst (fst setup) with
             | Ok a => a
             | Raise _ => ([], [], snd no_visualization, Sample.st0)
             end).
  pose (tdl := fst (fst (fst x))). pose (edl := snd (fst (fst x))).
  pose (vis := snd (fst x)). pose (st0 := snd x).
  pose (loop := train_epochs Sample.E self (compute_hidden Sample.E) tdl edl
                             ["accuracy"] vis 1 st0 (snd (fst setup))).
  pose (st_k := match fst (fst loop) with Ok a => a | Raise _ => st0 end).
  pose (round := train_epoch Sample.E self (compute_hidden Sample.E) tdl edl
                             ["accuracy"] vis 1 st_k (snd (fst loop))).
  pose (st' := match fst (fst round) with Ok a => a | Raise _ => st0 end).
  assert (Hsetup : setup = (Ok (tdl, edl, vis, st0), snd (fst setup), snd setup))
    by (vm_compute; reflexivity).
  assert (Hloop : loop = (Ok st_k, snd (fst loop), snd loop))
    by (vm_compute; reflexivity).
  assert (Hround : round = (Ok st', snd (fst round), snd round))
    by (vm_compute; reflexivity).
  exists tdl, edl, vis, st0, (snd (fst setup)), (snd setup),
    st_k, (snd (fst loop)), (snd loop), st', (snd (fst round)), (snd round).
  split; [exact Hsetup |]. split; [exact Hloop |]. split; [exact Hround |].
  exact (best_checkpoint_written_iff
           Sample.E self Sample.dataset ["accuracy"] None Sample.w0
           tdl edl vis st0 (snd (fst setup)) (snd setup) 1 st_k
           (snd (fst loop)) (snd loop) st' (snd (fst round)) (snd round)
           eq_refl Hsetup Hloop Hround).
Defined.

(** The first round of a run whose model scores 0 on the dev splits: no
    earlier round has a score for 0 to exceed, yet nothing is written,
    because 0 does not exceed the initial best score 0. *)
Lemma first_epoch_zero_score_not_written :
  let self := Sample.trainer 1 1 "best" false in
  exists tdl edl vis st0 w1 t0 st' w' t,
    train_setup self (compute_hidden Sample.E_zero) Sample.dataset
                ["accuracy"] None Sample.w0 =
    (Ok (tdl, edl, vis, st0), w1, t0) /\
    train_epochs Sample.E_zero self (compute_hidden Sample.E_zero) tdl edl
                 ["accuracy"] vis 0 st0 w1 = (Ok st0, w1, []) /\
    train_epoch Sample.E_zero self (compute_hidden Sample.E_zero) tdl edl
                ["accuracy"] vis 0 st0 w1 = (Ok st', w', t) /\
    dev_scores t = [0%Q] /\
    saves t = [] /\
    ~ written_iff_exceeds_earlier [] t.
Proof.
  intros self. do 9 eexists.
  split; [lazy; reflexivity |]. split; [lazy; reflexivity |].
  split; [lazy; reflexivity |].
  split; [reflexivity |]. split; [reflexivity |].
  unfold written_iff_exceeds_earlier. intros [_ H].
  apply H; [| reflexivity].
  exists 0%Q. split; [reflexivity |]. intros s' [].
Qed.

(** C5. Under policy "last", a call of [train] that returns has written
    exactly one checkpoint, after all the epochs have run and been
    evaluated, and has read it back; and the epoch loop writes none,
    whatever the dev scores. *)
Theorem last_checkpoint_written_once E self dataset metrics config w w' t :
  ckpt self = "last" ->
  Trainer_train E self dataset metrics config w = (Ok tt, w', t) ->
  (forall tdl edl vis k st0 w1,
      saves (snd (train_epochs E self (compute_hidden E) tdl edl metrics vis
                               k st0 w1)) = []) /\
  exists pre sd,
    t = pre ++ [EvTorchSave (model_checkpoint self "last") sd; EvLogFinished;
                EvTorchLoad (model_checkpoint self "last")] /\
    saves pre = [] /\
    length (dev_scores pre) = Z.to_nat (epochs self) /\
    saves t = [(model_checkpoint self "last", sd)].
Proof.
  intros Hckpt Hrun.
  assert (Hpolicy : String.eqb (ckpt self) "best" = false)
    by (rewrite Hckpt; reflexivity).
  split.
  - intros tdl edl vis k st0 w1.
    destruct (train_epochs E self (compute_hidden E) tdl edl metrics vis k st0 w1)
      as [[r1 w2] t1] eqn:Hl.
    apply (train_epochs_other_policy _ _ _ _ _ _ _ Hpolicy) in Hl. apply Hl.
  - apply train_run in Hrun.
    destruct Hrun as [(e & _ & [=])
                     | (tdl & edl & vis & st0 & w1 & t0 & Hs &
                        [(e & t1 & _ & _ & [=])
                        | (st & w2 & t1 & t2 & Hl & Hf & ->)])].
    pose proof (train_setup_emits E self training_event dataset metrics config
                                  I w) as Ht0.
    rewrite Hs in Ht0. simpl in Ht0.
    destruct (train_epochs_scores _ _ _ _ _ _ _ _ _ _ _ _ Hl) as (Hlen & _).
    destruct (train_epochs_other_policy _ _ _ _ _ _ _ Hpolicy _ _ _ _ _ Hl)
      as (Hs1 & _).
    destruct (train_finish_last _ _ _ _ _ _ Hckpt Hf) as (tv & sd & -> & Hv).
    exists (t0 ++ t1 ++ tv), sd.
    assert (Hpre : saves (t0 ++ t1 ++ tv) = []).
    { rewrite !saves_app, Hs1, (training_saves _ Ht0),
        (visualization_saves _ Hv). reflexivity. }
    split; [rewrite <- !app_assoc; reflexivity |].
    split; [exact Hpre |]. split.
    + rewrite !dev_scores_app, (training_dev_scores _ Ht0),
        (visualization_dev_scores _ Hv), app_nil_r. exact Hlen.
    + rewrite !app_assoc, saves_app, <- !app_assoc, Hpre. reflexivity.
Qed.

Lemma last_checkpoint_written_once_witness :
  let self := Sample.trainer 2 1 "last" false in
  exists w' t,
    Trainer_train Sample.E self Sample.dataset ["accuracy"] None Sample.w0 =
    (Ok tt, w', t) /\
    exists pre sd,
      t = pre ++ [EvTorchSave (model_checkpoint self "last") sd; EvLogFinished;
                  EvTorchLoad (model_checkpoint self "last")] /\
      saves pre = [] /\
      length (dev_scores pre) = Z.to_nat (epochs self) /\
      saves t = [(model_checkpoint self "last", sd)].
Proof.
  intros self.
  pose (run := Trainer_train Sample.E self Sample.dataset ["accuracy"] None
                             Sample.w0).
  assert (Hrun : run = (Ok tt, snd (fst run), snd run))
    by (vm_compute; reflexivity).
  exists (snd (fst run)), (snd run). split; [exact Hrun |].
  exact (proj2 (last_checkpoint_written_once
                  Sample.E self Sample.dataset ["accuracy"] None Sample.w0
                  (snd (fst run)) (snd run) eq_refl Hrun)).
Defined.

(** C10 as the specification words it, for the run of [train] from world
    [w]: under policy "best", a run in which no dev score exceeds 0 writes no
    checkpoint and fails instead of returning the model. *)
Definition fails_without_improvement (E : collaborators) (self : Trainer)
           (dataset : dict (list example)) (metrics : list string)
           (config : option poisoner_config) (w : world) : Prop :=
  let run := Trainer_train E self dataset metrics config w in
  ckpt self = "best" ->
  (forall s, In s (dev_scores (snd run)) -> ~ (0 < s)%Q) ->
  saves (snd run) = [] /\ exists e, fst (fst run) = Raise e.

(** C10, as the code has it. Under policy "best", when no "best" checkpoint
    file is at the trainer's save path as [train] is called, a call in which
    no dev score exceeds 0 writes no checkpoint and does not return the
    model: it fails, and once the epochs are over and the end of training is
    logged, the failure is that of loading the "best" file. *)
Theorem no_improvement_no_checkpoint E self dataset metrics config w r w' t :
  ckpt self = "best" ->
  ckpt_files w !! model_checkpoint self "best" = None ->
  Trainer_train E self dataset metrics config w = (r, w', t) ->
  (forall s, In s (dev_scores t) -> ~ (0 < s)%Q) ->
  saves t = [] /\
  (exists e, r = Raise e) /\
  (In EvLogFinished t -> r = Raise FileNotFoundError).
Proof.
  intros Hckpt Hnone Hrun Hlow.
  assert (Hnf_train : forall ev, training_event ev -> ev <> EvLogFinished)
    by (intros [] H; simpl in H; try contradiction; discriminate).
  pose proof (train_setup_emits E self training_event dataset metrics config
                                I w) as Ht0.
  pose proof (train_setup_keeps E self dataset metrics config w) as Hf0.
  apply train_run in Hrun.
  destruct Hrun as [(e & Hs & ->)
                   | (tdl & edl & vis & st0 & w1 & t0 & Hs &
                      [(e & t1 & Hl & -> & ->)
                      | (st & w2 & t1 & t2 & Hl & Hf & ->)])];
    rewrite Hs in Ht0, Hf0; simpl in Ht0, Hf0.
  - split; [apply training_saves; exact Ht0 |]. split; [eauto |].
    intros Hin. exfalso. revert Hin. apply not_in_trace.
    eapply List.Forall_impl; [exact Hnf_train | exact Ht0].
  - destruct (train_setup_ok _ _ _ _ _ _ _ _ _ _ _ _ Hs) as (Hzero & _).
    destruct (train_epochs_no_improvement _ _ _ _ _ _ _ _ _ _ _ _ Hl)
      as (Hs1 & _).
    { intros s Hin. rewrite Hzero. apply Qnot_lt_le, Hlow.
      rewrite dev_scores_app. apply in_or_app. right. exact Hin. }
    pose proof (train_epochs_emits E self (fun ev => ev <> EvLogFinished)
                  tdl edl metrics vis (Z.to_nat (epochs self)) st0 Hnf_train
                  ltac:(discriminate) ltac:(discriminate) ltac:(discriminate)
                  w1) as Ht1.
    rewrite Hl in Ht1. simpl in Ht1.
    split; [rewrite saves_app, Hs1, (training_saves _ Ht0); reflexivity |].
    split; [eauto |].
    intros Hin. exfalso. apply in_app_or in Hin. destruct Hin as [Hin | Hin].
    + revert Hin. apply not_in_trace.
      eapply List.Forall_impl; [exact Hnf_train | exact Ht0].
    + revert Hin. apply not_in_trace. exact Ht1.
  - destruct (train_setup_ok _ _ _ _ _ _ _ _ _ _ _ _ Hs) as (Hzero & _).
    destruct (train_epochs_no_improvement _ _ _ _ _ _ _ _ _ _ _ _ Hl)
      as (Hs1 & Hf1 & _).
    { intros s Hin. rewrite Hzero. apply Qnot_lt_le, Hlow.
      rewrite !dev_scores_app. apply in_or_app. right. apply in_or_app.
      left. exact Hin. }
    destruct (train_finish_best self vis st w2 r w' t2 Hckpt) as (Hs2 & e & -> & He);
      [congruence | exact Hf |].
    split; [rewrite !saves_app, Hs1, Hs2, (training_saves _ Ht0); reflexivity |].
    split; [eauto |].
    intros Hin. f_equal. apply He.
    apply in_app_or in Hin. destruct Hin as [Hin | Hin].
    + exfalso. revert Hin. apply not_in_trace.
      eapply List.Forall_impl; [exact Hnf_train | exact Ht0].
    + apply in_app_or in Hin. destruct Hin as [Hin | Hin]; [| exact Hin].
      exfalso. revert Hin. apply not_in_trace.
      pose proof (train_epochs_emits E self (fun ev => ev <> EvLogFinished)
                    tdl edl metrics vis (Z.to_nat (epochs self)) st0 Hnf_train
                    ltac:(discriminate) ltac:(discriminate) ltac:(discriminate)
                    w1) as Ht1.
      rewrite Hl in Ht1. exact Ht1.
Qed.

Lemma no_improvement_no_checkpoint_witness :
  let self := Sample.trainer 2 1 "best" false in
  ckpt_files Sample.w0 !! model_checkpoint self "best" = None /\
  exists r w' t,
    Trainer_train Sample.E_zero self Sample.dataset ["accuracy"] None
                  Sample.w0 = (r, w', t) /\
    (forall s, In s (dev_scores t) -> ~ (0 < s)%Q) /\
    saves t = [] /\
    (exists e, r = Raise e) /\
    (In EvLogFinished t -> r = Raise FileNotFoundError).
Proof.
  intros self. split; [reflexivity |]. do 3 eexists.
  split; [lazy; reflexivity |].
  match goal with
  | |- ?H /\ _ => assert (Hlow : H)
  end.
  { simpl. intros s [<- | [<- | []]]; apply Qlt_irrefl. }
  split; [exact Hlow |].
  eapply (no_improvement_no_checkpoint
            Sample.E_zero self Sample.dataset ["accuracy"] None Sample.w0);
    [reflexivity | reflexivity | lazy; reflexivity | exact Hlow].
Defined.

(** The run of the witness: two epochs are trained and evaluated, nothing is
    saved, and the load after "Training finished." fails. *)
Example zero_score_run_fails :
  let run := Trainer_train Sample.E_zero (Sample.trainer 2 1 "best" false)
                           Sample.dataset ["accuracy"] None Sample.w0 in
  fst (fst run) = Raise FileNotFoundError /\
  dev_scores (snd run) = [0; 0]%Q /\
  saves (snd run) = [] /\
  List.last (snd run) EvZeroGrad = EvLogFinished.
Proof. lazy. auto. Qed.

(** Two calls of [train] on one [Trainer], whose save path is fixed when it
    is built (line 60). The first, with a model that learns, writes the
    "best" file. In the second, on a model that scores 0 on the dev splits,
    no dev score exceeds 0 and nothing is written, yet line 191 finds the
    file of the first call: [train] returns, and the model it returns has
    the parameters of that earlier run. *)
Lemma second_call_returns_earlier_checkpoint :
  let self := Sample.trainer 1 1 "best" false in
  let first := Trainer_train Sample.E self Sample.dataset ["accuracy"] None
                             Sample.w0 in
  let second := Trainer_train Sample.E_zero self Sample.dataset ["accuracy"]
                              None (snd (fst first)) in
  fst (fst first) = Ok tt /\
  saves (snd first) = [(model_checkpoint self "best", 3)] /\
  dev_scores (snd second) = [0%Q] /\
  saves (snd second) = [] /\
  fst (fst second) = Ok tt /\
  weights (snd (fst second)) = 3 /\
  List.last (snd second) EvZeroGrad = EvTorchLoad (model_checkpoint self "best") /\
  ~ fails_without_improvement Sample.E_zero self Sample.dataset ["accuracy"]
                              None (snd (fst first)).
Proof.
  intros self first second.
  assert (H1 : fst (fst first) = Ok tt) by (vm_compute; reflexivity).
  assert (H2 : saves (snd first) = [(model_checkpoint self "best", 3)])
    by (vm_compute; reflexivity).
  assert (H3 : dev_scores (snd second) = [0%Q]) by (vm_compute; reflexivity).
  assert (H4 : saves (snd second) = []) by (vm_compute; reflexivity).
  assert (H5 : fst (fst second) = Ok tt) by (vm_compute; reflexivity).
  assert (H6 : weights (snd (fst second)) = 3) by (vm_compute; reflexivity).
  assert (H7 : List.last (snd second) EvZeroGrad =
               EvTorchLoad (model_checkpoint self "best"))
    by (vm_compute; reflexivity).
  do 7 (split; [assumption |]).
  unfold fails_without_improvement. fold second. cbv zeta. intros Hclaim.
  destruct Hclaim as (_ & e & He); [reflexivity | |].
  - rewrite H3. intros s [<- | []]. apply Qlt_irrefl.
  - rewrite H5 in He. discriminate He.
Qed.

(** ** Claims about the hidden states *)

(** C8, at a dataloader of one batch of one example: [compute_hidden] does
    not return its three sequences; it raises [AttributeError] and leaves the
    model in evaluation mode. *)
Theorem compute_hidden_raises_on_first_batch :
  compute_hidden Sample.E [[Sample.ex 1 0]] Sample.w0 =
  (Raise AttributeError,
   {| model_mode := Evaluation; weights := 0; ckpt_files := ∅ |}, []).
Proof. reflexivity. Qed.


(** Only the pass over no batch at all returns, with three empty lists and
    the model back in training mode. *)
Lemma compute_hidden_empty E w :
  compute_hidden E [] w =
  (Ok (PyList [], [], []),
   {| model_mode := Training; weights := weights w;
      ckpt_files := ckpt_files w |}, []).
Proof. apply compute_hidden_run. Qed.

(** ** Claim about the evaluation splits *)

(** C6. In [train], the splits handed to every per-epoch evaluation are
    exactly the splits of the wrapped dataset whose name up to its first [-]
    is "dev", each with its own dataloader; "dev-a" and "dev-b" qualify,
    "development" does not. *)
Theorem dev_splits_by_prefix E self dataset metrics config w :
  (forall dataloader,
      exists eval_dataloader,
        dev_splits dataloader = Ok eval_dataloader /\
        (forall key,
            In key (dict_keys eval_dataloader) <->
            In key (dict_keys dataloader) /\ prefix_before "-" key = "dev") /\
        (forall key,
            In key (dict_keys eval_dataloader) ->
            dict_get eval_dataloader key = dict_get dataloader key)) /\
  (forall keys s,
      In (EvEvaluate keys s)
         (snd (Trainer_train E self dataset metrics config w)) ->
      exists dataloader,
        wrap_dataset dataset (batch_size self) = Ok dataloader /\
        forall key,
          In key keys <->
          In key (dict_keys dataloader) /\ prefix_before "-" key = "dev") /\
  prefix_before "-" "dev-a" = "dev" /\
  prefix_before "-" "dev-b" = "dev" /\
  prefix_before "-" "development" <> "dev".
Proof.
  assert (Hsplits : forall dataloader,
             exists eval_dataloader,
               dev_splits dataloader = Ok eval_dataloader /\
               (forall key,
                   In key (dict_keys eval_dataloader) <->
                   In key (dict_keys dataloader) /\
                   prefix_before "-" key = "dev") /\
               (forall key,
                   In key (dict_keys eval_dataloader) ->
                   dict_get eval_dataloader key = dict_get dataloader key)).
  { intros dataloader.
    destruct (dev_splits_loop_spec dataloader dataloader (fun _ H => H) [])
      as (r & Hr & Hkeys & Hget); [intros key [] |].
    exists r. split; [exact Hr |]. split; [| exact Hget].
    intros key. rewrite Hkeys. simpl. tauto. }
  split; [exact Hsplits |]. split; [| repeat split; discriminate].
  intros keys s Hin.
  destruct (Trainer_train E self dataset metrics config w) as [[r w'] t] eqn:Hrun.
  simpl in Hin. apply train_run in Hrun.
  assert (Hnone : forall t0, Forall training_event t0 ->
                             ~ In (EvEvaluate keys s) t0).
  { intros t0 H0 Hin0. rewrite List.Forall_forall in H0. exact (H0 _ Hin0). }
  pose proof (train_setup_emits E self training_event dataset metrics config
                                I w) as Ht0.
  destruct Hrun as [(e & Hs & _)
                   | (tdl & edl & vis & st0 & w1 & t0 & Hs & Hrest)];
    rewrite Hs in Ht0; simpl in Ht0.
  - exfalso. exact (Hnone _ Ht0 Hin).
  - destruct (train_setup_ok _ _ _ _ _ _ _ _ _ _ _ _ Hs)
      as (_ & dataloader & Hwrap & _ & Hdev).
    exists dataloader. split; [exact Hwrap |].
    destruct (Hsplits dataloader) as (edl' & Hdev' & Hkeys & _).
    assert (edl' = edl) by congruence. subst edl'.
    set (Pk := fun ev => match ev with
                         | EvEvaluate keys' _ => keys' = dict_keys edl
                         | _ => True
                         end).
    assert (Hloop : forall k,
               Forall Pk (snd (train_epochs E self (compute_hidden E) tdl edl
                                            metrics vis k st0 w1))).
    { intros k. apply train_epochs_emits; subst Pk; simpl; auto.
      intros []; simpl; tauto. }
    assert (Hkeys_eq : keys = dict_keys edl).
    { destruct Hrest as [(e & t1 & Hl & -> & _)
                        | (st & w2 & t1 & t2 & Hl & Hf & ->)];
        specialize (Hloop (Z.to_nat (epochs self))); rewrite Hl in Hloop;
        simpl in Hloop; rewrite List.Forall_forall in Hloop.
      - apply in_app_or in Hin. destruct Hin as [Hin | Hin].
        + exfalso. exact (Hnone _ Ht0 Hin).
        + exact (Hloop _ Hin).
      - apply in_app_or in Hin. destruct Hin as [Hin | Hin];
          [exfalso; exact (Hnone _ Ht0 Hin) |].
        apply in_app_or in Hin. destruct Hin as [Hin | Hin];
          [exact (Hloop _ Hin) |].
        exfalso.
        pose proof (train_finish_emits self
                      (fun ev => ev <> EvEvaluate keys s) vis st
                      ltac:(discriminate) ltac:(discriminate)
                      ltac:(discriminate) ltac:(discriminate)
                      ltac:(discriminate) ltac:(discriminate)
                      ltac:(discriminate) w2) as Hfin.
        rewrite Hf in Hfin. simpl in Hfin.
        exact (not_in_trace _ _ Hfin Hin). }
    subst keys. exact Hkeys.
Qed.

(** The run of the sample dataset evaluates on "dev-a" and "dev-b", not on
    "development" or "train". *)
Example sample_run_evaluates_dev_splits :
  forall keys s,
    In (EvEvaluate keys s)
       (snd (Trainer_train Sample.E (Sample.trainer 1 1 "last" false)
                           Sample.dataset ["accuracy"] None Sample.w0)) ->
    keys = ["dev-a"; "dev-b"].
Proof.
  vm_compute. intros keys s H.
  repeat (destruct H as [H | H]; [try discriminate; congruence |]).
  contradiction.
Qed.

(** ** Claim about runs without visualisation *)

(** The only write is a checkpoint write to [path]. *)
Definition checkpoint_write_only (path : string) (ev : event) : Prop :=
  match ev with
  | EvTorchSave p _ => p = path
  | EvMakedirs _ | EvNpSave _ | EvSavefig _ | EvVisualize _ _ _ _ => False
  | _ => True
  end.

(** With the flag off, whatever [compute_hidden] the trainer has is never
    called and the visualisation block is skipped. *)
Lemma train_without_visualization E self cm dataset metrics config :
  visualize_flag self = false ->
  emits (checkpoint_write_only (model_checkpoint self (ckpt self)))
        (train E self cm dataset metrics config).
Proof.
  intros Hflag. destruct self as [ep bs ck sp gas vf]. simpl in Hflag.
  subst vf.
  assert (Htr : forall ev,
             training_event ev ->
             checkpoint_write_only
               (model_checkpoint
                  {| epochs := ep; batch_size := bs; ckpt := ck;
                     save_path := sp; gradient_accumulation_steps := gas;
                     visualize_flag := false |} ck) ev)
    by (intros []; simpl; tauto).
  unfold train, train_setup, train_epochs, train_epoch, train_finish,
    register, evaluate.
  cbn [visualize_flag ckpt] in *. frame_train.
Qed.

(** C9. In a call of [train] with the visualize flag off, no event of the
    hidden-state and plotting steps occurs and every path written is the
    checkpoint path; so, the checkpoint path not lying under
    [./hidden_states] or [./visualization], no file is written under
    either. *)
Theorem no_visualization_files E self cm dataset metrics config w ev :
  visualize_flag self = false ->
  under "./hidden_states" (model_checkpoint self (ckpt self)) = false ->
  under "./visualization" (model_checkpoint self (ckpt self)) = false ->
  In ev (snd (train E self cm dataset metrics config w)) ->
  ~ visualization_event ev /\
  forall p,
    written_path ev = Some p ->
    p = model_checkpoint self (ckpt self) /\
    under "./hidden_states" p = false /\
    under "./visualization" p = false.
Proof.
  intros Hflag Hh Hv Hin.
  pose proof (train_without_visualization E self cm dataset metrics config
                                          Hflag w) as Hall.
  rewrite List.Forall_forall in Hall. specialize (Hall _ Hin).
  split.
  - destruct ev; simpl in *; tauto.
  - intros p Hp.
    assert (p = model_checkpoint self (ckpt self)) as ->.
    { destruct ev; simpl in *; try discriminate; try contradiction.
      congruence. }
    auto.
Qed.

Lemma no_visualization_files_witness :
  let self := Sample.trainer 2 1 "best" false in
  let ev := EvTorchSave "./models/checkpoints/1700000000/best.ckpt" 3 in
  In ev (snd (Trainer_train Sample.E self Sample.dataset ["accuracy"] None
                            Sample.w0)) /\
  ~ visualization_event ev /\
  forall p,
    written_path ev = Some p ->
    p = model_checkpoint self (ckpt self) /\
    under "./hidden_states" p = false /\
    under "./visualization" p = false.
Proof.
  intros self ev.
  assert (Hin : In ev (snd (Trainer_train Sample.E self Sample.dataset
                                          ["accuracy"] None Sample.w0))).
  { vm_compute. do 21 right. left. reflexivity. }
  split; [exact Hin |].
  apply (no_visualization_files
           Sample.E self (compute_hidden Sample.E) Sample.dataset
           ["accuracy"] None Sample.w0 ev);
    [reflexivity | reflexivity | reflexivity | exact Hin].
Defined.

(** ** Claim about the hidden-state history *)

Definition not_visualize (ev : event) : Prop :=
  match ev with
  | EvVisualize _ _ _ _ => False
  | _ => True
  end.

(** A [compute_hidden] that does not itself call [visualize]. *)
Definition never_visualizes (cm : DataLoader -> M (pyobj * list Z * list Z))
  : Prop :=
  forall dl, emits not_visualize (cm dl).

(** A [compute_hidden] that, on dataloader [dl], returns a list of [n] pooled
    vectors. *)
Definition returns_per_example
           (cm : DataLoader -> M (pyobj * list Z * list Z))
           (dl : DataLoader) (n : nat) : Prop :=
  forall w, exists hs ls ps,
      fst (fst (cm dl w)) = Ok (PyList hs, ls, ps) /\ length hs = n.

(** Splits a hypothesis about a run of [bind] that returned. *)
Ltac step H :=
  let a := fresh "a" in
  let w := fresh "w" in
  let t1 := fresh "t" in
  let t2 := fresh "t" in
  let Hc := fresh "Hc" in
  apply bind_run in H;
  destruct H as [(a & w & t1 & t2 & Hc & H & ->) | (? & _ & [=])].

(** Cleans up after [step]: splits tuples and reads off what [lift] and
    [ret] returned. *)
Ltac tidy :=
  repeat match goal with
         | x : (_ * _)%type |- _ => destruct x
         | H : lift _ _ = (Ok _, _, _) |- _ =>
             unfold lift in H; injection H as H ? ?; subst
         | H : ret _ _ = (Ok _, _, _) |- _ =>
             unfold ret in H; injection H; intros; subst; clear H
         end.

Section History.

Variable E : collaborators.
Variable self : Trainer.
Variable cm : DataLoader -> M (pyobj * list Z * list Z).
Variable n : nat.

Hypothesis flag_on : visualize_flag self = true.

Lemma train_setup_history dataset metrics config w split tdl edl vis st0 w1 t0 :
  dict_get dataset "train" = Some split ->
  returns_per_example cm (batches_from 32 [] split) n ->
  train_setup self cm dataset metrics config w =
  (Ok (tdl, edl, vis, st0), w1, t0) ->
  vis_dataset vis = batches_from 32 [] split /\
  exists hs, self_hidden_state st0 = PyList hs /\ length hs = n.
Proof.
  intros Hsplit Hcm H. unfold train_setup in H. rewrite flag_on in H.
  do 5 step H. tidy.
  match goal with
  | Hp : prepare_visualization _ _ _ _ = _ |- _ =>
      unfold prepare_visualization in Hp; do 4 step Hp
  end.
  tidy. unfold py_getitem in *. rewrite Hsplit in *.
  match goal with
  | Hs : Ok _ = Ok _ |- _ => injection Hs as <-
  end.
  change (Z.to_nat 32) with 32 in *.
  simpl. split; [reflexivity |].
  match goal with
  | Hx : cm _ ?wx = _ |- _ =>
      destruct (Hcm wx) as (hs & ls & ps & Hres & Hlen);
      rewrite Hx in Hres; simpl in Hres; injection Hres as -> _ _
  end.
  exists hs. auto.
Qed.

Variable train_dataloader : DataLoader.
Variable eval_dataloader : dict DataLoader.
Variable metrics : list string.
Variable vis : vis_attrs.

Hypothesis cm_returns : returns_per_example cm (vis_dataset vis) n.

Lemma train_epoch_history epoch st w st' w' t hs :
  self_hidden_state st = PyList hs ->
  train_epoch E self cm train_dataloader eval_dataloader metrics vis
              epoch st w = (Ok st', w', t) ->
  exists hs', self_hidden_state st' = PyList (hs ++ hs') /\ length hs' = n.
Proof.
  intros Hst H. unfold train_epoch in H. rewrite flag_on in H.
  do 4 step H.
  match goal with
  | Hh : bind (cm _) _ _ = _ |- _ => step Hh
  end.
  tidy.
  match goal with
  | Hx : cm _ ?wx = _ |- _ =>
      destruct (cm_returns wx) as (hs' & ls & ps & Hres & Hlen);
      rewrite Hx in Hres; simpl in Hres; injection Hres as -> _ _
  end.
  rewrite Hst in *.
  match goal with
  | Hp : py_extend _ _ = Ok _ |- _ => simpl in Hp; injection Hp as <-
  end.
  exists hs'. split; [| exact Hlen].
  match goal with
  | H' : (if ?c then _ else _) _ = _ |- _ => destruct c; [step H' |]; tidy
  end; reflexivity.
Qed.

Lemma train_epochs_history k :
  forall st w st' w' t hs,
    self_hidden_state st = PyList hs ->
    train_epochs E self cm train_dataloader eval_dataloader metrics vis
                 k st w = (Ok st', w', t) ->
    exists hs', self_hidden_state st' = PyList hs' /\
                length hs' = length hs + k * n.
Proof.
  unfold train_epochs.
  induction k as [| k IH]; intros st w st' w' t hs Hst H.
  - injection H as <- <- <-. exists hs. split; [exact Hst | lia].
  - rewrite for_range_succ in H. step H.
    destruct (IH _ _ _ _ _ _ Hst Hc) as (hs1 & Hst1 & Hlen1).
    destruct (train_epoch_history _ _ _ _ _ _ _ Hst1 H) as (hs2 & Hst2 & Hlen2).
    exists (hs1 ++ hs2). split; [exact Hst2 |].
    rewrite length_app, Hlen1, Hlen2. lia.
Qed.

End History.

(** What lines 160 and 169-170 accumulate when [self.compute_hidden] is a
    method that returns, as an overriding one may: a history handed to
    [visualize] has [(e + 1) * n] entries for [e] epochs over [n] examples,
    the snapshot taken before the first epoch and one more per epoch. The
    [compute_hidden] of trainer.py is not such a method: see below. *)
Lemma history_length_when_compute_hidden_returns
      E self cm dataset metrics config w split h l p f :
  visualize_flag self = true ->
  dict_get dataset "train" = Some split ->
  never_visualizes cm ->
  returns_per_example cm (batches_from 32 [] split) (length split) ->
  In (EvVisualize h l p f) (snd (train E self cm dataset metrics config w)) ->
  py_len h = Ok ((Z.to_nat (epochs self) + 1) * length split).
Proof.
  intros Hflag Hsplit Hquiet Hcm Hin.
  destruct (train E self cm dataset metrics config w) as [[r w'] t] eqn:Hrun.
  simpl in Hin. apply train_run in Hrun.
  assert (Hno : forall t0, Forall not_visualize t0 ->
                           ~ In (EvVisualize h l p f) t0).
  { intros t0 H0 Hin0. rewrite List.Forall_forall in H0. exact (H0 _ Hin0). }
  pose proof (train_setup_emits_with self not_visualize cm Hquiet dataset
                                     metrics config I w) as Ht0.
  destruct Hrun as [(e & Hs & _)
                   | (tdl & edl & vis & st0 & w1 & t0 & Hs & Hrest)];
    rewrite Hs in Ht0; simpl in Ht0.
  - exfalso. exact (Hno _ Ht0 Hin).
  - destruct (train_setup_history self cm (length split) Hflag _ _ _ _ _ _ _
                                  _ _ _ _ Hsplit Hcm Hs)
      as (Hvis & hs0 & Hst0 & Hlen0).
    pose proof (train_epochs_emits_with E self not_visualize cm Hquiet
                  tdl edl metrics vis (Z.to_nat (epochs self)) st0
                  ltac:(intros []; simpl; tauto) ltac:(simpl; auto)
                  ltac:(simpl; auto) ltac:(simpl; auto) w1) as Ht1.
    destruct Hrest as [(e & t1 & Hl & -> & _)
                      | (st & w2 & t1 & t2 & Hl & Hf & ->)];
      rewrite Hl in Ht1; simpl in Ht1.
    + exfalso. apply in_app_or in Hin.
      destruct Hin as [Hin | Hin]; [exact (Hno _ Ht0 Hin) | exact (Hno _ Ht1 Hin)].
    + apply in_app_or in Hin.
      destruct Hin as [Hin | Hin]; [exfalso; exact (Hno _ Ht0 Hin) |].
      apply in_app_or in Hin.
      destruct Hin as [Hin | Hin]; [exfalso; exact (Hno _ Ht1 Hin) |].
      rewrite <- Hvis in Hcm.
      destruct (train_epochs_history E self cm (length split) Hflag tdl edl
                  metrics vis Hcm _ _ _ _ _ _ _ Hst0 Hl)
        as (hs & Hst & Hlen).
      pose proof (train_finish_emits self
                    (fun ev => match ev with
                               | EvVisualize h' _ _ _ =>
                                   h' = self_hidden_state st
                               | _ => True
                               end) vis st
                    ltac:(simpl; auto) ltac:(simpl; auto) ltac:(simpl; auto)
                    ltac:(simpl; auto) ltac:(simpl; auto) ltac:(simpl; auto)
                    ltac:(simpl; auto) w2) as Hfin.
      rewrite Hf in Hfin. simpl in Hfin. rewrite List.Forall_forall in Hfin.
      specialize (Hfin _ Hin). simpl in Hfin. subst h. rewrite Hst. simpl.
      f_equal. lia.
Qed.

(** C7. With visualisation on, [Trainer.train] hands no history to
    [visualize]. On the sample dataset, whose training split has five
    examples, and whatever the model, the number of epochs, the accumulation
    factor and the checkpoint policy: the baseline [compute_hidden] of line
    160 raises [AttributeError] on its first batch (line 249), before the
    first epoch; the run has only cleared the gradients in [register], it
    leaves the model in evaluation mode, and its trace holds no call of
    [visualize], with a history of [e * 5] entries or of any other length. *)
Theorem history_never_reaches_visualize E n_epochs gas policy :
  Trainer_train E (Sample.trainer n_epochs gas policy true) Sample.dataset
                ["accuracy"] Sample.config Sample.w0 =
  (Raise AttributeError,
   {| model_mode := Evaluation; weights := 0; ckpt_files := ∅ |},
   [EvZeroGrad]) /\
  forall h l p f,
    ~ In (EvVisualize h l p f)
         (snd (Trainer_train E (Sample.trainer n_epochs gas policy true)
                             Sample.dataset ["accuracy"] Sample.config
                             Sample.w0)).
Proof.
  assert (Hrun : Trainer_train E (Sample.trainer n_epochs gas policy true)
                               Sample.dataset ["accuracy"] Sample.config
                               Sample.w0 =
                 (Raise AttributeError,
                  {| model_mode := Evaluation; weights := 0;
                     ckpt_files := ∅ |},
                  [EvZeroGrad])) by reflexivity.
  split; [exact Hrun |].
  intros h l p f. rewrite Hrun. cbn [snd].
  intros [H | []]. discriminate H.
Qed.

(** * Further properties of the trainer *)

(** ** [train_one_epoch]: optimizer steps, model mode *)

Lemma step_losses_count gas :
  (0 < gas)%Z ->
  forall losses start,
    Z.of_nat (length (step_losses_from gas start losses)) =
    ((Z.of_nat start + Z.of_nat (length losses)) / gas - Z.of_nat start / gas)%Z.
Proof.
  intros Hgas. induction losses as [| l ls IH]; intros start.
  - simpl. rewrite Z.add_0_r. lia.
  - cbn [step_losses_from length]. rewrite length_app, Nat2Z.inj_add, IH.
    pose proof (div_succ_step gas (Z.of_nat start) Hgas ltac:(lia)) as Hd.
    replace (Z.of_nat (S start)) with (Z.of_nat start + 1)%Z by lia.
    replace (Z.of_nat start + Z.of_nat (S (length ls)))%Z
      with (Z.of_nat start + 1 + Z.of_nat (length ls))%Z by lia.
    rewrite Hd.
    destruct ((Z.of_nat start + 1) mod gas =? 0)%Z; simpl; lia.
Qed.

(** With accumulation factor [g >= 1], an epoch over [n] batches makes
    [n / g] optimizer steps (integer division): the batches after the last
    full group of [g] trigger none. *)
Theorem optimizer_steps_per_epoch E self epoch batches w :
  (1 <= gradient_accumulation_steps self)%Z ->
  Z.of_nat (optimizer_steps (snd (train_one_epoch E self epoch batches w))) =
  (Z.of_nat (length batches) / gradient_accumulation_steps self)%Z.
Proof.
  intros Hgas.
  destruct (train_one_epoch_run E self epoch batches w ltac:(lia))
    as (w' & t & Hrun & Hlen & Hopt & _).
  rewrite Hrun. cbn [snd]. rewrite Hopt. unfold step_losses.
  rewrite step_losses_count by lia. rewrite Hlen.
  change (Z.of_nat 0) with 0%Z. rewrite Z.add_0_l, Z.div_0_l by lia. lia.
Qed.

Lemma optimizer_steps_per_epoch_witness :
  Z.of_nat (optimizer_steps
              (snd (train_one_epoch Sample.E (Sample.trainer 1 2 "best" false)
                                    0 Sample.batches Sample.w0))) =
  (Z.of_nat (length Sample.batches) / 2)%Z.
Proof.
  apply (optimizer_steps_per_epoch
           Sample.E (Sample.trainer 1 2 "best" false) 0 Sample.batches
           Sample.w0).
  simpl. lia.
Defined.

(** When the accumulation factor exceeds the number of batches, the epoch
    makes no optimizer step at all and reports an average loss of 0. *)
Theorem accumulation_longer_than_epoch E self epoch batches w :
  batches <> [] ->
  (Z.of_nat (length batches) < gradient_accumulation_steps self)%Z ->
  optimizer_steps (snd (train_one_epoch E self epoch batches w)) = 0 /\
  exists avg,
    fst (fst (train_one_epoch E self epoch batches w)) = Ok avg /\
    (avg == 0)%Q.
Proof.
  intros Hne Hlt.
  assert (Hsteps : optimizer_steps
                     (snd (train_one_epoch E self epoch batches w)) = 0).
  { destruct (train_one_epoch_run E self epoch batches w ltac:(lia))
      as (w' & t & Hrun & Hlen & Hopt & _).
    rewrite Hrun. cbn [snd]. rewrite Hopt. unfold step_losses.
    apply Nat2Z.inj. rewrite step_losses_count by lia. rewrite Hlen.
    change (Z.of_nat 0) with 0%Z.
    rewrite Z.add_0_l, Z.div_0_l, Z.div_small by lia. reflexivity. }
  split; [exact Hsteps |].
  destruct (train_one_epoch_run E self epoch batches w ltac:(lia))
    as (w' & t & Hrun & Hlen & Hopt & _).
  rewrite Hrun in *. cbn [fst snd] in *.
  destruct batches as [| b bs]; [contradiction |]. cbn [length].
  eexists. split; [reflexivity |].
  unfold avg_loss_spec.
  destruct (step_losses (gradient_accumulation_steps self) (forward_losses t))
    as [| x xs]; [| rewrite Hopt in Hsteps; discriminate].
  simpl. unfold Qdiv. apply Qmult_0_l.
Qed.

Lemma accumulation_longer_than_epoch_witness :
  optimizer_steps (snd (train_one_epoch Sample.E
                                        (Sample.trainer 1 4 "best" false) 0
                                        Sample.batches Sample.w0)) = 0 /\
  exists avg,
    fst (fst (train_one_epoch Sample.E (Sample.trainer 1 4 "best" false) 0
                              Sample.batches Sample.w0)) = Ok avg /\
    (avg == 0)%Q.
Proof.
  apply (accumulation_longer_than_epoch
           Sample.E (Sample.trainer 1 4 "best" false) 0 Sample.batches
           Sample.w0); [discriminate | simpl; lia].
Defined.




(** A computation leaves the model's mode alone. *)
Definition keeps_mode {A} (c : M A) : Prop :=
  forall w, model_mode (snd (fst (c w))) = model_mode w.

Lemma keeps_mode_bind {A B} (c : M A) (k : A -> M B) :
  keeps_mode c -> (forall a, keeps_mode (k a)) -> keeps_mode (bind c k).
Proof.
  intros Hc Hk w. unfold bind. specialize (Hc w).
  destruct (c w) as [[[a | e] w1] t1]; simpl in *; auto.
  specialize (Hk a w1). destruct (k a w1) as [[r2 w2] t2]; simpl in *.
  congruence.
Qed.

Lemma keeps_mode_for_enumerate {A St} (body : nat -> A -> St -> M St) xs :
  (forall i x s, keeps_mode (body i x s)) ->
  forall start s, keeps_mode (for_enumerate body start xs s).
Proof.
  intros Hb. induction xs as [| x xs IH]; intros start s; simpl.
  - intros w. reflexivity.
  - apply keeps_mode_bind; auto.
Qed.

Lemma train_batch_keeps_mode E self step b total :
  keeps_mode (train_batch E self step b total).
Proof.
  unfold train_batch, scale_or_backward.
  repeat first
    [ apply keeps_mode_bind; intros
    | match goal with
      | |- keeps_mode (if ?c then _ else _) => destruct c
      end
    | intros w0; reflexivity ].
Qed.

(** Whatever the outcome, [train_one_epoch] leaves the model in training
    mode (line 106) and the checkpoint files as they were. *)
Theorem train_one_epoch_training_mode E self epoch batches w :
  model_mode (snd (fst (train_one_epoch E self epoch batches w))) = Training /\
  ckpt_files (snd (fst (train_one_epoch E self epoch batches w))) =
  ckpt_files w.
Proof.
  split; [| apply train_one_epoch_keeps].
  unfold train_one_epoch.
  rewrite (bind_ok (set_mode Training) _ w tt _ [] eq_refl).
  match goal with
  | |- context [bind ?c ?k ?w1] =>
      assert (Hk : keeps_mode (bind c k));
      [| specialize (Hk w1); destruct (bind c k w1) as [[r w2] t2]; exact Hk]
  end.
  apply keeps_mode_bind.
  - apply keeps_mode_for_enumerate. intros. apply train_batch_keeps_mode.
  - intros total. destruct (length batches); intros w0; reflexivity.
Qed.

(** ** [compute_hidden] and its callers *)

(** [compute_hidden] returns only for a dataloader without batches, with
    three empty lists and the model back in training mode; for every other
    dataloader, whatever the model, it raises [AttributeError], leaves the
    model in evaluation mode and has accumulated nothing. *)
Theorem compute_hidden_returns_iff_empty E dl w :
  ((exists x, fst (fst (compute_hidden E dl w)) = Ok x) <-> dl = []) /\
  (dl = [] ->
   fst (fst (compute_hidden E dl w)) = Ok (PyList [], [], []) /\
   model_mode (snd (fst (compute_hidden E dl w))) = Training) /\
  (dl <> [] ->
   fst (fst (compute_hidden E dl w)) = Raise AttributeError /\
   model_mode (snd (fst (compute_hidden E dl w))) = Evaluation) /\
  weights (snd (fst (compute_hidden E dl w))) = weights w /\
  snd (compute_hidden E dl w) = [].
Proof.
  rewrite compute_hidden_run. destruct dl as [| b dl]; cbn [fst snd].
  - split; [split; eauto |]. split; [auto |]. split; [congruence | auto].
  - split; [split; [intros [x Hx]; discriminate | discriminate] |].
    split; [discriminate |]. split; auto.
Qed.

Lemma save_and_visualize_no_labels vis hidden w :
  self_labels vis = [] ->
  exists e w1 t1, save_and_visualize vis hidden w = (Raise e, w1, t1).
Proof.
  intros Hlabels. unfold save_and_visualize, visualize. rewrite Hlabels.
  unfold bind, emit, lift, raise. simpl.
  destruct (py_len hidden); simpl; eauto.
Qed.

(** With the visualize flag on, [Trainer.train] never returns, whatever the
    model, the dataset and the configuration: [compute_hidden] gets through
    only on an empty training split, and then either the first epoch or
    [visualize] divides by zero. *)
Theorem visualization_run_never_returns E self dataset metrics config w :
  visualize_flag self = true ->
  exists e,
    fst (fst (Trainer_train E self dataset metrics config w)) = Raise e.
Proof.
  intros Hflag.
  destruct (Trainer_train E self dataset metrics config w) as [[r w'] t] eqn:Hrun.
  cbn [fst]. destruct r as [[] | e]; [exfalso | eauto].
  apply train_run in Hrun.
  destruct Hrun as [(e & _ & [=])
                   | (tdl & edl & vis & st0 & w1 & t0 & Hs &
                      [(e & t1 & _ & _ & [=])
                      | (st & w2 & t1 & t2 & Hl & Hf & ->)])].
  assert (Hlabels : self_labels vis = []).
  { unfold train_setup in Hs. rewrite Hflag in Hs. do 5 step Hs. tidy.
    match goal with
    | Hp : prepare_visualization _ _ _ _ = _ |- _ =>
        unfold prepare_visualization in Hp; do 4 step Hp
    end.
    tidy.
    match goal with
    | Hx : compute_hidden _ ?dl ?wx = _ |- _ =>
        rewrite compute_hidden_run in Hx;
        set (d := dl) in *; clearbody d; destruct d; cbv beta iota in Hx;
        [| discriminate];
        injection Hx; intros; subst
    end.
    reflexivity. }
  destruct (save_and_visualize_no_labels vis (self_hidden_state st) w2 Hlabels)
    as (e & w3 & t3 & Hv).
  unfold train_finish in Hf. rewrite Hflag in Hf.
  rewrite (bind_raise _ _ _ _ _ _ Hv) in Hf. discriminate.
Qed.

Lemma visualization_run_never_returns_witness :
  exists e,
    fst (fst (Trainer_train Sample.E (Sample.trainer 2 1 "last" true)
                            Sample.dataset ["accuracy"] Sample.config
                            Sample.w0)) = Raise e.
Proof.
  apply (visualization_run_never_returns
           Sample.E (Sample.trainer 2 1 "last" true) Sample.dataset
           ["accuracy"] Sample.config Sample.w0).
  reflexivity.
Defined.


Lemma bind_lift_ok {A B} (r : result A) (k : A -> M B) w a :
  r = Ok a -> bind (lift r) k w = k a w.
Proof.
  intros ->. unfold bind, lift. destruct (k a w) as [[r2 w2] t2]. reflexivity.
Qed.

Lemma bind_lift_raise {A B} (r : result A) (k : A -> M B) w e :
  r = Raise e -> bind (lift r) k w = (Raise e, w, []).
Proof. intros ->. reflexivity. Qed.

(** [register], once line 143 has found the "train" dataloader. *)
Lemma register_run dataloader metrics w tdl :
  py_getitem dataloader "train" = Ok tdl ->
  register dataloader metrics w =
  match metrics with
  | [] => (Raise IndexError, w, [])
  | _ :: _ =>
      (Ok tt, {| model_mode := Training; weights := weights w;
                 ckpt_files := ckpt_files w |}, [EvZeroGrad])
  end.
Proof.
  intros Htrain. unfold register. destruct metrics as [| m ms].
  - reflexivity.
  - unfold bind, lift, set_mode, emit, ret. simpl. rewrite Htrain. reflexivity.
Qed.





(** With the visualize flag on and no [config] (the default of the
    parameter), [train] fails before any batch is trained, whatever
    [compute_hidden] the trainer has; once [register] has passed, the failure
    is the [TypeError] of subscripting [None] at line 153. *)
Theorem visualization_needs_config E self cm dataset metrics w :
  visualize_flag self = true ->
  (exists e,
      fst (fst (train E self cm dataset metrics None w)) = Raise e) /\
  Forall (fun ev => ev = EvZeroGrad)
         (snd (train E self cm dataset metrics None w)) /\
  (snd (train E self cm dataset metrics None w) <> [] ->
   fst (fst (train E self cm dataset metrics None w)) = Raise TypeError).
Proof.
  intros Hflag.
  assert (Hs : exists e w' t,
             train_setup self cm dataset metrics None w = (Raise e, w', t) /\
             Forall (fun ev => ev = EvZeroGrad) t /\
             (t <> [] -> e = TypeError)).
  { unfold train_setup.
    destruct (wrap_dataset dataset (batch_size self)) as [loaders | e1] eqn:Hw;
      [rewrite (bind_lift_ok _ _ _ _ eq_refl)
      | rewrite (bind_lift_raise _ _ _ _ eq_refl); do 3 eexists;
        split; [reflexivity |]; split;
        [constructor | intros H; contradiction]].
    destruct (py_getitem loaders "train") as [tdl | e2] eqn:Htrain;
      [rewrite (bind_lift_ok _ _ _ _ eq_refl)
      | rewrite (bind_lift_raise _ _ _ _ eq_refl); do 3 eexists;
        split; [reflexivity |]; split;
        [constructor | intros H; contradiction]].
    destruct (dev_splits loaders) as [edl | e3] eqn:Hdev;
      [rewrite (bind_lift_ok _ _ _ _ eq_refl)
      | rewrite (bind_lift_raise _ _ _ _ eq_refl); do 3 eexists;
        split; [reflexivity |]; split;
        [constructor | intros H; contradiction]].
    pose proof (register_run loaders metrics w tdl Htrain) as Hreg.
    destruct metrics as [| m ms].
    { rewrite (bind_raise _ _ _ _ _ _ Hreg). do 3 eexists.
      split; [reflexivity |]. split; [constructor | intros H; contradiction]. }
    rewrite (bind_ok _ _ _ _ _ _ Hreg), Hflag.
    unfold prepare_visualization.
    rewrite bind_assoc, (bind_lift_raise _ _ _ _ eq_refl).
    do 3 eexists. split; [reflexivity |].
    split; [repeat constructor | reflexivity]. }
  destruct Hs as (e & w' & t & Hs & Hall & Herr).
  unfold train. rewrite (bind_raise _ _ _ _ _ _ Hs). cbn [fst snd].
  split; [eauto |]. split; [exact Hall |]. intros Ht. f_equal. auto.
Qed.

Lemma visualization_needs_config_witness :
  let run := train Sample.E (Sample.trainer 2 1 "last" true)
                   (compute_hidden Sample.E) Sample.dataset
                   ["accuracy"] None Sample.w0 in
  (exists e, fst (fst run) = Raise e) /\
  Forall (fun ev => ev = EvZeroGrad) (snd run) /\
  (snd run <> [] -> fst (fst run) = Raise TypeError).
Proof.
  apply (visualization_needs_config
           Sample.E (Sample.trainer 2 1 "last" true)
           (compute_hidden Sample.E) Sample.dataset ["accuracy"]
           Sample.w0).
  reflexivity.
Defined.

(** ** The checkpoint file and the returned model *)

Section FinishReturns.

Variable self : Trainer.
Variable vis : vis_attrs.
Variable st : run_state.

Let path := model_checkpoint self (ckpt self).

(** A [train_finish] that completes: under policy "last" it has written the
    parameters it returns; under any other policy it has written nothing and
    returns the parameters the checkpoint file held. Either way the file
    holds the returned parameters, and no other file has changed. *)
Lemma train_finish_ok w w' t :
  train_finish self vis st w = (Ok tt, w', t) ->
  (if String.eqb (ckpt self) "last"
   then saves t = [(path, weights w')]
   else saves t = [] /\ ckpt_files w !! path = Some (weights w')) /\
  ckpt_files w' !! path = Some (weights w') /\
  dev_scores t = [].
Proof.
  subst path. unfold train_finish. fold (finish_visualization self vis st).
  pose proof (finish_visualization_emits self vis st w) as Hv.
  pose proof (finish_visualization_keeps self vis st w) as Hf.
  destruct (finish_visualization self vis st w) as [[[[] | e] wv] tv] eqn:HV;
    simpl in Hv, Hf.
  - rewrite (bind_ok _ _ _ _ _ _ HV).
    destruct (String.eqb (ckpt self) "last").
    + unfold bind, torch_save, emit, torch_load, load_state_dict. simpl.
      rewrite lookup_insert_eq. simpl. intros [= <- <-]. simpl.
      rewrite saves_app, dev_scores_app, (visualization_saves _ Hv),
        (visualization_dev_scores _ Hv), lookup_insert_eq. auto.
    + unfold bind, ret, emit, torch_load, load_state_dict. simpl.
      destruct (ckpt_files wv !! model_checkpoint self (ckpt self))
        as [sd |] eqn:Hlook; simpl; [| discriminate].
      intros [= <- <-]. simpl.
      rewrite saves_app, dev_scores_app, (visualization_saves _ Hv),
        (visualization_dev_scores _ Hv), <- Hf. auto.
  - rewrite (bind_raise _ _ _ _ _ _ HV). discriminate.
Qed.

(** [train_finish] touches no checkpoint file but its own. *)
Lemma train_finish_other_files w q :
  q <> path ->
  ckpt_files (snd (fst (train_finish self vis st w))) !! q = ckpt_files w !! q.
Proof.
  subst path. intros Hq. unfold train_finish.
  fold (finish_visualization self vis st).
  pose proof (finish_visualization_keeps self vis st w) as Hf.
  destruct (finish_visualization self vis st w) as [[[[] | e] wv] tv] eqn:HV;
    simpl in Hf.
  - rewrite (bind_ok _ _ _ _ _ _ HV).
    destruct (String.eqb (ckpt self) "last");
      unfold bind, ret, torch_save, emit, torch_load, load_state_dict; simpl.
    + rewrite lookup_insert_eq. simpl. rewrite lookup_insert_ne, Hf by auto.
      reflexivity.
    + destruct (ckpt_files wv !! model_checkpoint self (ckpt self));
        simpl; rewrite Hf; reflexivity.
  - rewrite (bind_raise _ _ _ _ _ _ HV). simpl. rewrite Hf. reflexivity.
Qed.

(** Without the file and under a policy other than "last", [train_finish]
    writes nothing and fails. *)
Lemma train_finish_no_file w r w' t :
  String.eqb (ckpt self) "last" = false ->
  ckpt_files w !! path = None ->
  train_finish self vis st w = (r, w', t) ->
  saves t = [] /\ ckpt_files w' = ckpt_files w /\ exists e, r = Raise e.
Proof.
  subst path. intros Hpolicy Hnone. unfold train_finish.
  fold (finish_visualization self vis st).
  pose proof (finish_visualization_emits self vis st w) as Hv.
  pose proof (finish_visualization_keeps self vis st w) as Hf.
  destruct (finish_visualization self vis st w) as [[[[] | e] wv] tv] eqn:HV;
    simpl in Hv, Hf.
  - rewrite (bind_ok _ _ _ _ _ _ HV), Hpolicy.
    unfold bind, emit, torch_load, ret. simpl. rewrite Hf, Hnone. simpl.
    intros [= <- <- <-]. rewrite saves_app, (visualization_saves _ Hv).
    eauto.
  - rewrite (bind_raise _ _ _ _ _ _ HV). intros [= <- <- <-].
    rewrite (visualization_saves _ Hv). eauto.
Qed.

End FinishReturns.

(** When a call of [train] returns, whatever the policy and whatever
    [compute_hidden] the trainer has, the checkpoint file of the policy holds
    exactly the parameters of the returned model (lines 191-192). *)
Theorem returned_model_is_checkpoint E self cm dataset metrics config w w' t :
  train E self cm dataset metrics config w = (Ok tt, w', t) ->
  ckpt_files w' !! model_checkpoint self (ckpt self) = Some (weights w').
Proof.
  intros Hrun. apply train_run in Hrun.
  destruct Hrun as [(e & _ & [=])
                   | (tdl & edl & vis & st0 & w1 & t0 & Hs &
                      [(e & t1 & _ & _ & [=])
                      | (st & w2 & t1 & t2 & Hl & Hf & ->)])].
  apply train_finish_ok in Hf. apply Hf.
Qed.

Lemma returned_model_is_checkpoint_witness :
  let self := Sample.trainer 2 1 "best" false in
  let run := Trainer_train Sample.E self Sample.dataset ["accuracy"] None
                           Sample.w0 in
  run = (Ok tt, snd (fst run), snd run) /\
  ckpt_files (snd (fst run)) !! model_checkpoint self (ckpt self) =
  Some (weights (snd (fst run))).
Proof.
  intros self run.
  assert (Hrun : run = (Ok tt, snd (fst run), snd run))
    by (vm_compute; reflexivity).
  split; [exact Hrun |].
  exact (returned_model_is_checkpoint
           Sample.E self (compute_hidden Sample.E) Sample.dataset
           ["accuracy"] None Sample.w0 _ _ Hrun).
Defined.

Section LoopFiles.

Variable E : collaborators.
Variable self : Trainer.
Variable train_dataloader : DataLoader.
Variable eval_dataloader : dict DataLoader.
Variable metrics : list string.
Variable vis : vis_attrs.

Let path := model_checkpoint self (ckpt self).

(** What the epoch loop leaves in the checkpoint file: the parameters of its
    latest write, or what was there when it wrote nothing; and it changes no
    other file. *)
Lemma train_epochs_files k :
  forall st w r w' t,
    train_epochs E self (compute_hidden E) train_dataloader eval_dataloader
                 metrics vis k st w = (r, w', t) ->
    ckpt_files w' !! path =
    match last (saves t) with
    | Some (_, sd) => Some sd
    | None => ckpt_files w !! path
    end /\
    (forall q, q <> path -> ckpt_files w' !! q = ckpt_files w !! q).
Proof.
  subst path. induction k as [| k IH]; intros st w r w' t Hrun.
  - rewrite train_epochs_zero in Hrun. injection Hrun as <- <- <-. auto.
  - rewrite train_epochs_succ in Hrun. apply bind_run in Hrun.
    destruct Hrun as [(st_k & w_k & t_k & t_e & Hk & He & ->) | (e & Hk & ->)];
      [| eapply IH; exact Hk].
    destruct (IH _ _ _ _ _ Hk) as (Hfile & Hother).
    destruct (train_epoch_spec _ _ _ _ _ _ _ _ _ _ _ _ He) as (_ & Hok & Herr).
    rewrite saves_app.
    assert (Hcases :
              (saves t_e = [] /\ ckpt_files w' = ckpt_files w_k) \/
              (saves t_e = [(model_checkpoint self (ckpt self), weights w')] /\
               ckpt_files w' =
               <[model_checkpoint self (ckpt self) := weights w']>
                 (ckpt_files w_k))).
    { destruct r as [st' | e].
      - destruct (Hok _ eq_refl) as (s & _ & _ & Hsave & Hfiles).
        destruct (improves self s (best_dev_score st_k)); auto.
      - left. exact (Herr e eq_refl). }
    destruct Hcases as [(Hsave & Hfiles) | (Hsave & Hfiles)];
      rewrite Hsave, Hfiles.
    + rewrite app_nil_r. auto.
    + rewrite last_snoc, lookup_insert_eq. split; [reflexivity |].
      intros q Hq. rewrite lookup_insert_ne by auto. apply Hother. exact Hq.
Qed.

End LoopFiles.

(** A call of [Trainer.train] with the visualize flag off, whatever its
    outcome, changes no checkpoint file other than [save_path/<ckpt>.ckpt]. *)
Theorem train_touches_only_its_checkpoint
        E self dataset metrics config w q :
  visualize_flag self = false ->
  q <> model_checkpoint self (ckpt self) ->
  ckpt_files (snd (fst (Trainer_train E self dataset metrics config w))) !! q =
  ckpt_files w !! q.
Proof.
  intros _ Hq.
  destruct (Trainer_train E self dataset metrics config w) as [[r w'] t] eqn:Hrun.
  cbn [fst snd]. apply train_run in Hrun.
  pose proof (train_setup_keeps E self dataset metrics config w) as Hf0.
  destruct Hrun as [(e & Hs & _)
                   | (tdl & edl & vis & st0 & w1 & t0 & Hs &
                      [(e & t1 & Hl & _ & _)
                      | (st & w2 & t1 & t2 & Hl & Hf & _)])];
    rewrite Hs in Hf0; simpl in Hf0.
  - rewrite Hf0. reflexivity.
  - destruct (train_epochs_files _ _ _ _ _ _ _ _ _ _ _ _ Hl) as (_ & Hother).
    rewrite (Hother q Hq), Hf0. reflexivity.
  - destruct (train_epochs_files _ _ _ _ _ _ _ _ _ _ _ _ Hl) as (_ & Hother).
    pose proof (train_finish_other_files self vis st w2 q Hq) as Hfin.
    rewrite Hf in Hfin. simpl in Hfin.
    rewrite Hfin, (Hother q Hq), Hf0. reflexivity.
Qed.

Lemma train_touches_only_its_checkpoint_witness :
  let self := Sample.trainer 2 1 "last" false in
  ckpt_files (snd (fst (Trainer_train Sample.E self Sample.dataset
                                      ["accuracy"] None Sample.w0)))
  !! model_checkpoint self "best" =
  ckpt_files Sample.w0 !! model_checkpoint self "best".
Proof.
  intros self.
  apply (train_touches_only_its_checkpoint
           Sample.E self Sample.dataset ["accuracy"] None Sample.w0);
    [reflexivity | vm_compute; discriminate].
Defined.

(** The parameters [Trainer.train] returns are those of the latest checkpoint
    write of the call or, when the call wrote none, those that the
    checkpoint file held before the call. *)
Theorem returned_weights_are_last_saved E self dataset metrics config w w' t :
  Trainer_train E self dataset metrics config w = (Ok tt, w', t) ->
  match last (saves t) with
  | Some (_, sd) => weights w' = sd
  | None => ckpt_files w !! model_checkpoint self (ckpt self) = Some (weights w')
  end.
Proof.
  intros Hrun. apply train_run in Hrun.
  destruct Hrun as [(e & _ & [=])
                   | (tdl & edl & vis & st0 & w1 & t0 & Hs &
                      [(e & t1 & _ & _ & [=])
                      | (st & w2 & t1 & t2 & Hl & Hf & ->)])].
  pose proof (train_setup_emits E self training_event dataset metrics config
                                I w) as Ht0.
  pose proof (train_setup_keeps E self dataset metrics config w) as Hf0.
  rewrite Hs in Ht0, Hf0. simpl in Ht0, Hf0.
  destruct (train_epochs_files _ _ _ _ _ _ _ _ _ _ _ _ Hl) as (Hfile & _).
  destruct (train_finish_ok _ _ _ _ _ _ Hf) as (Hfin & _).
  rewrite !saves_app, (training_saves _ Ht0). cbn [app].
  destruct (String.eqb (ckpt self) "last").
  - rewrite Hfin, last_snoc. reflexivity.
  - destruct Hfin as (-> & Hheld). rewrite app_nil_r.
    rewrite Hfile, Hf0 in Hheld.
    destruct (last (saves t1)) as [[p sd] |]; [congruence | exact Hheld].
Qed.

Lemma returned_weights_are_last_saved_witness :
  let self := Sample.trainer 2 1 "best" false in
  let run := Trainer_train Sample.E self Sample.dataset ["accuracy"] None
                           Sample.w0 in
  run = (Ok tt, snd (fst run), snd run) /\
  match last (saves (snd run)) with
  | Some (_, sd) => weights (snd (fst run)) = sd
  | None =>
      ckpt_files Sample.w0 !! model_checkpoint self (ckpt self) =
      Some (weights (snd (fst run)))
  end.
Proof.
  intros self run.
  assert (Hrun : run = (Ok tt, snd (fst run), snd run))
    by (vm_compute; reflexivity).
  split; [exact Hrun |].
  exact (returned_weights_are_last_saved
           Sample.E self Sample.dataset ["accuracy"] None Sample.w0 _ _ Hrun).
Defined.

(** Under policy "best", a call in which no dev score exceeds 0 and which
    finds a "best" file already there - one left by an earlier call on the
    same trainer - writes nothing and returns the parameters of that old
    file instead of those it has just trained. *)
Theorem stale_checkpoint_returned E self dataset metrics config w w' t sd0 :
  ckpt self = "best" ->
  ckpt_files w !! model_checkpoint self "best" = Some sd0 ->
  Trainer_train E self dataset metrics config w = (Ok tt, w', t) ->
  (forall s, In s (dev_scores t) -> ~ (0 < s)%Q) ->
  saves t = [] /\ weights w' = sd0.
Proof.
  intros Hckpt Hfile Hrun Hlow.
  apply train_run in Hrun.
  destruct Hrun as [(e & _ & [=])
                   | (tdl & edl & vis & st0 & w1 & t0 & Hs &
                      [(e & t1 & _ & _ & [=])
                      | (st & w2 & t1 & t2 & Hl & Hf & ->)])].
  pose proof (train_setup_emits E self training_event dataset metrics
                                config I w) as Ht0.
  pose proof (train_setup_keeps E self dataset metrics config w) as Hf0.
  rewrite Hs in Ht0, Hf0. simpl in Ht0, Hf0.
  destruct (train_setup_ok _ _ _ _ _ _ _ _ _ _ _ _ Hs) as (Hzero & _).
  destruct (train_epochs_no_improvement _ _ _ _ _ _ _ _ _ _ _ _ Hl)
    as (Hs1 & Hf1 & _).
  { intros s Hin. rewrite Hzero. apply Qnot_lt_le, Hlow.
    rewrite !dev_scores_app. apply in_or_app. right. apply in_or_app.
    left. exact Hin. }
  destruct (train_finish_ok _ _ _ _ _ _ Hf) as (Hfin & _).
  rewrite Hckpt in Hfin. simpl in Hfin. destruct Hfin as (Hs2 & Hheld).
  rewrite !saves_app, Hs1, Hs2, (training_saves _ Ht0).
  split; [reflexivity |].
  rewrite Hf1, Hf0, Hfile in Hheld. congruence.
Qed.

Lemma stale_checkpoint_returned_witness :
  let self := Sample.trainer 2 1 "best" false in
  let w := {| model_mode := Evaluation; weights := 0;
              ckpt_files := {[ model_checkpoint self "best" := 7 ]} |} in
  let run := Trainer_train Sample.E_zero self Sample.dataset ["accuracy"]
                           None w in
  run = (Ok tt, snd (fst run), snd run) /\
  saves (snd run) = [] /\ weights (snd (fst run)) = 7.
Proof.
  intros self w run.
  assert (Hrun : run = (Ok tt, snd (fst run), snd run))
    by (vm_compute; reflexivity).
  split; [exact Hrun |].
  apply (stale_checkpoint_returned
           Sample.E_zero self Sample.dataset ["accuracy"] None w
           (snd (fst run)) (snd run) 7);
    [reflexivity | vm_compute; reflexivity | exact Hrun |].
  assert (Hscores : dev_scores (snd run) = [0; 0]%Q)
    by (vm_compute; reflexivity).
  rewrite Hscores. intros s [<- | [<- | []]]; apply Qlt_irrefl.
Defined.

(** Under a policy name that is neither "best" nor "last", with no file of
    that name yet, [Trainer.train] trains all its epochs, writes no
    checkpoint and then fails at the load. *)
Theorem unknown_policy_fails E self dataset metrics config w r w' t :
  ckpt self <> "best" ->
  ckpt self <> "last" ->
  ckpt_files w !! model_checkpoint self (ckpt self) = None ->
  Trainer_train E self dataset metrics config w = (r, w', t) ->
  saves t = [] /\ exists e, r = Raise e.
Proof.
  intros Hbest Hlast Hnone Hrun.
  apply String.eqb_neq in Hbest, Hlast.
  pose proof (train_setup_emits E self training_event dataset metrics config
                                I w) as Ht0.
  pose proof (train_setup_keeps E self dataset metrics config w) as Hf0.
  apply train_run in Hrun.
  destruct Hrun as [(e & Hs & ->)
                   | (tdl & edl & vis & st0 & w1 & t0 & Hs &
                      [(e & t1 & Hl & -> & ->)
                      | (st & w2 & t1 & t2 & Hl & Hf & ->)])];
    rewrite Hs in Ht0, Hf0; simpl in Ht0, Hf0.
  - split; [apply training_saves; exact Ht0 |]. eauto.
  - destruct (train_epochs_other_policy _ _ _ _ _ _ _ Hbest _ _ _ _ _ Hl)
      as (Hs1 & Hf1).
    rewrite saves_app, Hs1, (training_saves _ Ht0).
    split; [reflexivity | eauto].
  - destruct (train_epochs_other_policy _ _ _ _ _ _ _ Hbest _ _ _ _ _ Hl)
      as (Hs1 & Hf1).
    destruct (train_finish_no_file self vis st w2 r w' t2 Hlast)
      as (Hs2 & Hf2 & e & ->); [congruence | exact Hf |].
    rewrite !saves_app, Hs1, Hs2, (training_saves _ Ht0).
    split; [reflexivity | eauto].
Qed.

Lemma unknown_policy_fails_witness :
  let self := Sample.trainer 1 1 "Best" false in
  exists r w' t,
    Trainer_train Sample.E self Sample.dataset ["accuracy"] None Sample.w0 =
    (r, w', t) /\
    saves t = [] /\ exists e, r = Raise e.
Proof.
  intros self.
  pose (run := Trainer_train Sample.E self Sample.dataset ["accuracy"] None
                             Sample.w0).
  exists (fst (fst run)), (snd (fst run)), (snd run).
  assert (Hrun : run = (fst (fst run), snd (fst run), snd run))
    by (destruct run as [[r w'] t]; reflexivity).
  split; [exact Hrun |].
  apply (unknown_policy_fails
           Sample.E self Sample.dataset ["accuracy"] None Sample.w0
           (fst (fst run)) (snd (fst run)) (snd run));
    [discriminate | discriminate | reflexivity | exact Hrun].
Defined.

(** A call of [Trainer.train] that returns has evaluated the dev splits
    exactly once per epoch. *)
Theorem evaluated_once_per_epoch E self dataset metrics config w w' t :
  Trainer_train E self dataset metrics config w = (Ok tt, w', t) ->
  length (dev_scores t) = Z.to_nat (epochs self).
Proof.
  intros Hrun. apply train_run in Hrun.
  destruct Hrun as [(e & _ & [=])
                   | (tdl & edl & vis & st0 & w1 & t0 & Hs &
                      [(e & t1 & _ & _ & [=])
                      | (st & w2 & t1 & t2 & Hl & Hf & ->)])].
  pose proof (train_setup_emits E self training_event dataset metrics config
                                I w) as Ht0.
  rewrite Hs in Ht0. simpl in Ht0.
  destruct (train_epochs_scores _ _ _ _ _ _ _ _ _ _ _ _ Hl) as (Hlen & _).
  destruct (train_finish_ok _ _ _ _ _ _ Hf) as (_ & _ & Hd2).
  rewrite !dev_scores_app, (training_dev_scores _ Ht0), Hd2, app_nil_r.
  exact Hlen.
Qed.

Lemma evaluated_once_per_epoch_witness :
  let self := Sample.trainer 2 1 "last" false in
  let run := Trainer_train Sample.E self Sample.dataset ["accuracy"] None
                           Sample.w0 in
  run = (Ok tt, snd (fst run), snd run) /\
  length (dev_scores (snd run)) = Z.to_nat (epochs self).
Proof.
  intros self run.
  assert (Hrun : run = (Ok tt, snd (fst run), snd run))
    by (vm_compute; reflexivity).
  split; [exact Hrun |].
  exact (evaluated_once_per_epoch
           Sample.E self Sample.dataset ["accuracy"] None Sample.w0 _ _ Hrun).
Defined.

(** After [k] completed epochs of a call of [train], the best dev score is
    the maximum of 0 and the [k] dev scores seen: it is at least 0 and at
    least each of them, and it is 0 or one of them. *)
Theorem best_dev_score_is_maximum
        E self dataset metrics config w tdl edl vis st0 w1 t0 k st w' t :
  train_setup self (compute_hidden E) dataset metrics config w =
  (Ok (tdl, edl, vis, st0), w1, t0) ->
  train_epochs E self (compute_hidden E) tdl edl metrics vis k st0 w1 =
  (Ok st, w', t) ->
  length (dev_scores t) = k /\
  (0 <= best_dev_score st)%Q /\
  (forall s, In s (dev_scores t) -> (s <= best_dev_score st)%Q) /\
  (best_dev_score st = 0%Q \/ In (best_dev_score st) (dev_scores t)).
Proof.
  intros Hs Hl.
  destruct (train_setup_ok _ _ _ _ _ _ _ _ _ _ _ _ Hs) as (Hzero & _).
  destruct (train_epochs_scores _ _ _ _ _ _ _ _ _ _ _ _ Hl)
    as (Hlen & Hmono & Hmax & Hin).
  rewrite Hzero in Hmono, Hin. auto.
Qed.

Lemma best_dev_score_is_maximum_witness :
  let self := Sample.trainer 2 1 "best" false in
  let setup := train_setup self (compute_hidden Sample.E) Sample.dataset
                           ["accuracy"] None Sample.w0 in
  exists tdl edl vis st0 st,
    setup = (Ok (tdl, edl, vis, st0), snd (fst setup), snd setup) /\
    let loop := train_epochs Sample.E self (compute_hidden Sample.E) tdl edl
                             ["accuracy"] vis 2 st0 (snd (fst setup)) in
    loop = (Ok st, snd (fst loop), snd loop) /\
    length (dev_scores (snd loop)) = 2 /\
    (0 <= best_dev_score st)%Q /\
    (forall s, In s (dev_scores (snd loop)) -> (s <= best_dev_score st)%Q) /\
    (best_dev_score st = 0%Q \/ In (best_dev_score st) (dev_scores (snd loop))).
Proof.
  intros self setup.
  pose (x := match fst (fst setup) with
             | Ok a => a
             | Raise _ => ([], [], snd no_visualization, Sample.st0)
             end).
  pose (tdl := fst (fst (fst x))). pose (edl := snd (fst (fst x))).
  pose (vis := snd (fst x)). pose (st0 := snd x).
  pose (loop := train_epochs Sample.E self (compute_hidden Sample.E) tdl edl
                             ["accuracy"] vis 2 st0 (snd (fst setup))).
  pose (st := match fst (fst loop) with Ok a => a | Raise _ => st0 end).
  assert (Hsetup : setup = (Ok (tdl, edl, vis, st0), snd (fst setup), snd setup))
    by (vm_compute; reflexivity).
  assert (Hloop : loop = (Ok st, snd (fst loop), snd loop))
    by (vm_compute; reflexivity).
  exists tdl, edl, vis, st0, st.
  split; [exact Hsetup |]. split; [exact Hloop |].
  exact (best_dev_score_is_maximum
           Sample.E self Sample.dataset ["accuracy"] None Sample.w0
           tdl edl vis st0 _ _ 2 st _ _ Hsetup Hloop).
Defined.





(** The run of the witness, in full. *)
Example no_epochs_run :
  snd (Trainer_train Sample.E (Sample.trainer 0 1 "last" false)
                     Sample.dataset ["accuracy"] None Sample.w0) =
  [EvZeroGrad;
   EvTorchSave "./models/checkpoints/1700000000/last.ckpt" 0;
   EvLogFinished;
   EvTorchLoad "./models/checkpoints/1700000000/last.ckpt"].
Proof. vm_compute. reflexivity. Qed.

(** ** [visualize] *)

Lemma for_range_emits_trace n (events : nat -> list event) w :
  for_range n (fun k _ => fun w0 => (Ok tt, w0, events k)) tt w =
  (Ok tt, w, flat_map events (seq 0 n)).
Proof.
  induction n as [| n IH]; [reflexivity |].
  rewrite for_range_succ, (bind_ok _ _ _ _ _ _ IH).
  rewrite seq_S, flat_map_app. simpl. rewrite app_nil_r. reflexivity.
Qed.

(** The figures of epoch slice [k]. *)
Definition figure_events (fig_basepath : string) (k : nat) : list event :=
  [EvMakedirs fig_basepath;
   EvSavefig (path_join fig_basepath ["epoch_" +:+ str_of_nat k +:+ ".png"])].

(** [visualize] with no labels divides by zero (line 268) before it plots
    anything; otherwise, the plotting stack permitting, it saves one figure
    per full slice of [len(labels)] entries of the history, [epoch_0.png]
    onwards, a trailing partial slice being left out. *)
Lemma visualize_figures history labels poison_labels fig_basepath w :
  visualize (PyList history) labels poison_labels fig_basepath w =
  match labels with
  | [] =>
      (Raise ZeroDivisionError, w,
       [EvVisualize (PyList history) labels poison_labels fig_basepath])
  | _ :: _ =>
      (Ok tt, w,
       EvVisualize (PyList history) labels poison_labels fig_basepath
         :: flat_map (figure_events fig_basepath)
                     (seq 0 (length history / length labels)))
  end.
Proof.
  unfold visualize. destruct labels as [| l ls]; [reflexivity |].
  set (n := length history / length (l :: ls)).
  unfold bind at 1. cbn [emit].
  unfold bind at 1. cbn [lift py_len].
  unfold bind at 1. unfold ret at 1.
  change (length (l :: ls) =? 0) with false. cbv beta iota.
  match goal with
  | |- context [for_range ?m ?body tt w] =>
      change (for_range m body tt w)
        with (for_range n (fun k _ => fun w0 =>
                             (Ok tt, w0, figure_events fig_basepath k)) tt w)
  end.
  rewrite for_range_emits_trace. reflexivity.
Qed.

(** ** Checkpoint paths *)

Lemma append_inv_head (s a b : string) : s +:+ a = s +:+ b -> a = b.
Proof.
  induction s as [| c s IH]; [auto |].
  intros H. apply IH. change (String c (s +:+ a) = String c (s +:+ b)) in H.
  congruence.
Qed.

(** What [model_checkpoint] builds for a name that does not start with a
    slash: the save directory, one separator, the name and the suffix. *)
Lemma model_checkpoint_relative self name :
  starts_with_sep name = false ->
  model_checkpoint self name =
  (if String.eqb (save_path self) "" || ends_with_sep (save_path self)
   then save_path self
   else save_path self +:+ "/") +:+ name +:+ ".ckpt".
Proof.
  intros Hname. unfold model_checkpoint, path_join, path_join2. cbn [fold_left].
  assert (Hs : starts_with_sep (name +:+ ".ckpt") = false)
    by (destruct name; [reflexivity | exact Hname]).
  rewrite Hs.
  destruct (String.eqb (save_path self) "" || ends_with_sep (save_path self));
    [reflexivity |].
  generalize (save_path self). intros s.
  induction s as [| c s IH]; [reflexivity |].
  change (String c (s +:+ "/" +:+ name +:+ ".ckpt") =
          String c ((s +:+ "/") +:+ name +:+ ".ckpt")).
  f_equal. exact IH.
Qed.

(** The checkpoint files of the two policies are different files, whatever
    the save directory: a "last" run never overwrites a "best" checkpoint. *)
Theorem checkpoint_paths_distinct self :
  model_checkpoint self "best" <> model_checkpoint self "last".
Proof.
  rewrite !model_checkpoint_relative by reflexivity.
  intros H. apply append_inv_head in H. discriminate H.
Qed.

(** ** [str.split] and the evaluation splits, more precisely *)

(** How often a character occurs in a string. *)
Fixpoint str_count (c : ascii) (s : string) : nat :=
  match s with
  | EmptyString => 0
  | String c' s' => (if Ascii.eqb c' c then 1 else 0) + str_count c s'
  end.

Lemma concat_cons2 sep x y l :
  String.concat sep (x :: y :: l) = x +:+ sep +:+ String.concat sep (y :: l).
Proof. reflexivity. Qed.

(** [key.split(sep)] cuts at every separator and nowhere else: joining the
    pieces with the separator gives the key back, no piece contains the
    separator, and there is one piece more than there are separators. *)
Theorem str_split_round_trip sep s :
  String.concat (String sep EmptyString) (str_split sep s) = s /\
  Forall (fun piece => str_count sep piece = 0) (str_split sep s) /\
  length (str_split sep s) = S (str_count sep s).
Proof.
  induction s as [| c s (IHjoin & IHfree & IHlen)].
  - simpl. repeat split. repeat constructor.
  - cbn [str_split str_count].
    destruct (str_split_head sep s) as [pieces Hsplit].
    rewrite Hsplit in *. destruct (Ascii.eqb c sep) eqn:Hc.
    + apply Ascii.eqb_eq in Hc. subst c. split; [| split].
      * rewrite concat_cons2, IHjoin. reflexivity.
      * constructor; [reflexivity | exact IHfree].
      * cbn [length] in *. lia.
    + split; [| split].
      * destruct pieces as [| p ps].
        -- cbn [String.concat] in *. rewrite IHjoin. reflexivity.
        -- rewrite concat_cons2 in *. rewrite <- IHjoin at 2. reflexivity.
      * inversion IHfree as [| x l Hx Hl]; subst.
        constructor; [| exact Hl]. cbn [str_count]. rewrite Hc. exact Hx.
      * cbn [length] in *. lia.
Qed.

Lemma dict_get_app_notin {V} (pre rest : dict V) k :
  ~ In k (dict_keys pre) -> dict_get (pre ++ rest) k = dict_get rest k.
Proof.
  induction pre as [| [k' v'] pre IH]; intros Hnot; [reflexivity |].
  simpl in *. destruct (String.eqb_spec k' k) as [-> | Hne].
  - exfalso. auto.
  - apply IH. auto.
Qed.

Lemma dict_set_notin {V} (d : dict V) k v :
  ~ In k (dict_keys d) -> dict_set d k v = d ++ [(k, v)].
Proof.
  induction d as [| [k' v'] d IH]; intros Hnot; [reflexivity |].
  simpl in *. destruct (String.eqb_spec k' k) as [-> | Hne].
  - exfalso. auto.
  - rewrite IH by auto. reflexivity.
Qed.

(** Whether a split name selects its split for evaluation. *)
Definition is_dev_split (item : string * DataLoader) : bool :=
  String.eqb (prefix_before "-" (fst item)) "dev".

Lemma dev_splits_loop_order (dataloader : dict DataLoader) :
  List.NoDup (dict_keys dataloader) ->
  forall items pre acc,
    dataloader = pre ++ items ->
    (forall k, In k (dict_keys acc) -> In k (dict_keys pre)) ->
    dev_splits_loop dataloader items acc =
    Ok (acc ++ List.filter is_dev_split items).
Proof.
  intros Hnodup. induction items as [| [key item] items IH];
    intros pre acc Heq Hacc.
  - simpl. rewrite app_nil_r. reflexivity.
  - assert (Hfresh : ~ In key (dict_keys pre)).
    { rewrite Heq in Hnodup. unfold dict_keys in Hnodup.
      rewrite map_app in Hnodup. cbn [map fst] in Hnodup.
      apply List.NoDup_remove_2 in Hnodup. intros Hin. apply Hnodup.
      apply in_or_app. left. exact Hin. }
    cbn [dev_splits_loop List.filter]. rewrite py_first_split.
    unfold is_dev_split at 1. cbn [fst].
    destruct (String.eqb (prefix_before "-" key) "dev").
    + unfold py_getitem. rewrite Heq, dict_get_app_notin by exact Hfresh.
      cbn [dict_get]. rewrite String.eqb_refl. rewrite <- Heq.
      rewrite dict_set_notin by (intros Hin; apply Hfresh, Hacc, Hin).
      rewrite (IH (pre ++ [(key, item)]) (acc ++ [(key, item)])).
      * rewrite <- app_assoc. reflexivity.
      * rewrite <- app_assoc. exact Heq.
      * intros k Hin. unfold dict_keys in *. rewrite map_app in *.
        apply in_app_or in Hin. apply in_or_app.
        destruct Hin as [Hin | Hin]; [left; apply Hacc, Hin | right; exact Hin].
    + apply (IH (pre ++ [(key, item)]) acc).
      * rewrite <- app_assoc. exact Heq.
      * intros k Hin. unfold dict_keys in *. rewrite map_app.
        apply in_or_app. left. apply Hacc, Hin.
Qed.

(** For a dataloader dict (its keys are distinct), the evaluation dict of
    lines 144-147 is the dict itself with the non-"dev" splits removed:
    same order, same dataloaders. *)
Theorem dev_splits_in_dataset_order (dataloader : dict DataLoader) :
  List.NoDup (dict_keys dataloader) ->
  dev_splits dataloader = Ok (List.filter is_dev_split dataloader).
Proof.
  intros Hnodup. unfold dev_splits.
  apply (dev_splits_loop_order dataloader Hnodup dataloader [] []);
    [reflexivity | intros k []].
Qed.

Lemma dev_splits_in_dataset_order_witness :
  let dataloader : dict DataLoader :=
    [("train", Sample.batches); ("dev-b", [[Sample.ex 1 0]]);
     ("development", [[Sample.ex 1 1]]); ("dev-a", [[Sample.ex 0 0]])] in
  dev_splits dataloader =
  Ok [("dev-b", [[Sample.ex 1 0]]); ("dev-a", [[Sample.ex 0 0]])].
Proof.
  intros dataloader.
  apply (dev_splits_in_dataset_order dataloader).
  repeat constructor; simpl; intuition discriminate.
Defined.

(** ** Where the visualisation files go *)

Lemma append_assoc3 (a b c : string) : (a +:+ b) +:+ c = a +:+ b +:+ c.
Proof.
  induction a as [| x a IH]; [reflexivity |].
  change (String x ((a +:+ b) +:+ c) = String x (a +:+ b +:+ c)).
  f_equal. exact IH.
Qed.

Lemma append_nonempty (a b : string) : b <> "" -> a +:+ b <> "".
Proof. intros Hb. destruct a; [exact Hb | discriminate]. Qed.

Lemma ends_with_sep_append (a b : string) :
  b <> "" -> ends_with_sep (a +:+ b) = ends_with_sep b.
Proof.
  intros Hb. induction a as [| c a IH]; [reflexivity |].
  change (String c a +:+ b) with (String c (a +:+ b)).
  cbn [ends_with_sep]. rewrite IH.
  destruct (a +:+ b) eqn:Hab; [| reflexivity].
  exfalso. exact (append_nonempty a b Hb Hab).
Qed.

(** A path component that [os.path.join] appends after a slash: not empty,
    with no slash at either end. *)
Definition plain_component (s : string) : Prop :=
  s <> "" /\ starts_with_sep s = false /\ ends_with_sep s = false.

Lemma path_join2_plain path b :
  path <> "" ->
  ends_with_sep path = false ->
  plain_component b ->
  path_join2 path b = path +:+ "/" +:+ b /\
  path_join2 path b <> "" /\
  ends_with_sep (path_join2 path b) = false.
Proof.
  intros Hne Hend (Hb & Hstart & Hbend).
  assert (Heq : path_join2 path b = path +:+ "/" +:+ b).
  { unfold path_join2. rewrite Hstart, Hend.
    apply String.eqb_neq in Hne. rewrite Hne. reflexivity. }
  rewrite Heq. split; [reflexivity |]. split.
  - apply append_nonempty, append_nonempty, Hb.
  - rewrite ends_with_sep_append by (apply append_nonempty, Hb).
    rewrite ends_with_sep_append by exact Hb. exact Hbend.
Qed.

Lemma trace_bind_emit {B} ev (k : unit -> M B) w :
  snd (bind (emit ev) k w) = ev :: snd (k tt w).
Proof. unfold bind, emit. destruct (k tt w) as [[r w2] t2]. reflexivity. Qed.

(** [root/<setting>/<method>/<rate>] *)
Definition visualization_dir (root : string) (vis : vis_attrs) : string :=
  root +:+ "/" +:+ poison_setting vis +:+ "/" +:+ poison_method vis
       +:+ "/" +:+ poison_rate vis.

Lemma visualization_dir_join root vis :
  root <> "" ->
  ends_with_sep root = false ->
  plain_component (poison_setting vis) ->
  plain_component (poison_method vis) ->
  plain_component (poison_rate vis) ->
  path_join root [poison_setting vis; poison_method vis; poison_rate vis] =
  visualization_dir root vis /\
  forall file,
    plain_component file ->
    path_join (visualization_dir root vis) [file] =
    visualization_dir root vis +:+ "/" +:+ file.
Proof.
  intros Hroot Hend Hs Hm Hr.
  destruct (path_join2_plain root _ Hroot Hend Hs) as (E1 & N1 & S1).
  destruct (path_join2_plain _ _ N1 S1 Hm) as (E2 & N2 & S2).
  destruct (path_join2_plain _ _ N2 S2 Hr) as (E3 & N3 & S3).
  assert (Hdir : path_join root [poison_setting vis; poison_method vis;
                                 poison_rate vis] =
                 visualization_dir root vis).
  { unfold path_join, visualization_dir. cbn [fold_left].
    rewrite E3, E2, E1. rewrite !append_assoc3. reflexivity. }
  split; [exact Hdir |].
  intros file Hfile. rewrite <- Hdir. unfold path_join in *. cbn [fold_left] in *.
  apply (path_join2_plain _ _ N3 S3 Hfile).
Qed.

(** With a poisoner name and a printed poison rate that are not empty and
    have no slash at either end, lines 177-185 create the directory
    [./hidden_states/<setting>/<name>/<rate>], save the three arrays in it
    in the order of the code, and then call [visualize] on the history, the
    labels and the poison labels with
    [./visualization/<setting>/<name>/<rate>] as its [fig_basepath]. *)
Theorem visualization_block_writes vis hidden w :
  (poison_setting vis = "clean" \/ poison_setting vis = "dirty") ->
  plain_component (poison_method vis) ->
  plain_component (poison_rate vis) ->
  exists rest,
    snd (save_and_visualize vis hidden w) =
    [EvMakedirs (visualization_dir "./hidden_states" vis);
     EvNpSave (visualization_dir "./hidden_states" vis
               +:+ "/hidden_states.npy");
     EvNpSave (visualization_dir "./hidden_states" vis +:+ "/labels.npy");
     EvNpSave (visualization_dir "./hidden_states" vis
               +:+ "/poison_labels.npy");
     EvVisualize hidden (self_labels vis) (self_poison_labels vis)
                 (visualization_dir "./visualization" vis)] ++ rest.
Proof.
  intros Hsetting Hmethod Hrate.
  assert (Hset : plain_component (poison_setting vis)).
  { destruct Hsetting as [-> | ->];
      (split; [discriminate | split; reflexivity]). }
  destruct (visualization_dir_join "./hidden_states" vis ltac:(discriminate)
                                   eq_refl Hset Hmethod Hrate)
    as (Hh & Hfile).
  destruct (visualization_dir_join "./visualization" vis ltac:(discriminate)
                                   eq_refl Hset Hmethod Hrate)
    as (Hv & _).
  unfold save_and_visualize. rewrite Hh, Hv.
  rewrite !Hfile by (split; [discriminate | split; reflexivity]).
  unfold visualize. rewrite !trace_bind_emit.
  eexists. reflexivity.
Qed.

Lemma visualization_block_writes_witness :
  let vis := {| poison_method := "badnets"; poison_rate := "0.1";
                poison_setting := "dirty"; vis_dataset := [];
                self_labels := [0; 1]%Z; self_poison_labels := [0; 1]%Z |} in
  let hidden := PyList [PyFloat 1; PyFloat 1; PyFloat 1; PyFloat 1] in
  exists rest,
    snd (save_and_visualize vis hidden Sample.w0) =
    [EvMakedirs "./hidden_states/dirty/badnets/0.1";
     EvNpSave "./hidden_states/dirty/badnets/0.1/hidden_states.npy";
     EvNpSave "./hidden_states/dirty/badnets/0.1/labels.npy";
     EvNpSave "./hidden_states/dirty/badnets/0.1/poison_labels.npy";
     EvVisualize hidden [0; 1]%Z [0; 1]%Z
                 "./visualization/dirty/badnets/0.1"] ++ rest.
Proof.
  intros vis hidden.
  apply (visualization_block_writes vis hidden Sample.w0);
    [ right; reflexivity
    | split; [discriminate | split; reflexivity]
    | split; [discriminate | split; reflexivity] ].
Defined.

(** A poisoner name that starts with a slash takes the array files out of
    [./hidden_states]. *)
Example absolute_poisoner_name_escapes :
  path_join "./hidden_states" ["dirty"; "/tmp/x"; "0.1"] = "/tmp/x/0.1".
Proof. reflexivity. Qed.
